(** * Paper-trading bot ([app.py]): shallow embedding and properties

    The script keeps a virtual portfolio in the session state (cash balance,
    open positions, trade log) and, on every pass of its main loop, scans a
    ranked list of instruments and buys or sells on a momentum signal.

    Numbers are the program's numbers: Python and NumPy floats are IEEE 754
    binary64 values, which is what Rocq's primitive [float] implements
    (round to nearest, ties to even), so the arithmetic below is evaluated
    exactly as the program evaluates it.  The exchange is the only external
    input; it is a record of the answers it gives during one pass. *)

From Stdlib Require Import Floats ZArith List String Bool Lia.
From Stdlib Require Import Sorted Permutation.
Import ListNotations.
Local Open Scope float_scope.

(** ** Python comparison operators on floats

    [a > b] is [b < a] and [a >= b] is [b <= a]; every comparison with a NaN
    is false. *)

Definition gtb (a b : float) : bool := b <? a.
Definition geb (a b : float) : bool := b <=? a.

Infix ">?" := gtb (at level 70, no associativity) : float_scope.
Infix ">=?" := geb (at level 70, no associativity) : float_scope.

(** ** Configuration (lines 8-12) *)

Definition START_CAPITAL : Z := 1000000.
Definition TRADE_INTERVAL : Z := 5.
Definition MAX_POSITIONS : Z := 4.

(** Conversion of a (small, nonnegative) Python [int] to a float; exact below
    [2^53]. *)
Definition float_of_int (z : Z) : float := of_uint63 (Uint63.of_Z z).

(** [START_CAPITAL / MAX_POSITIONS] is Python's true division of two ints. *)
Definition ALLOCATION_PER_TRADE : float :=
  float_of_int START_CAPITAL / float_of_int MAX_POSITIONS.

(** ** Session state (lines 14-22) *)

(** A value of the [portfolio] dict: [{'amt': qty, 'avg_price': price}]. *)
Record Position : Set := mkPosition {
  amt : float;
  avg_price : float
}.

Inductive TradeType : Set := BUY | SELL.

(** An entry of [trade_log].  The ["Time"] field is the wall clock at the
    moment of the trade and is left out. *)
Record Trade : Set := mkTrade {
  Symbol : string;
  Type_ : TradeType;
  Price : float;
  Qty : float;
  PnL : float
}.

(** A Python dict keeps its keys in insertion order, and the order is visible
    (the dashboard sums the positions in that order), so the portfolio is an
    association list with unique keys. *)
Definition dict (V : Type) : Type := list (string * V).

Section Dict.
Context {V : Type}.

(** [k in d] *)
Definition contains (d : dict V) (k : string) : bool :=
  existsb (fun kv => String.eqb k (fst kv)) d.

(** [d[k]]; [None] stands for [KeyError]. *)
Fixpoint getitem (d : dict V) (k : string) : option V :=
  match d with
  | [] => None
  | (k', v) :: d' => if String.eqb k k' then Some v else getitem d' k
  end.

(** [d[k] = v]: an existing key keeps its place, a new key goes last. *)
Fixpoint setitem (d : dict V) (k : string) (v : V) : dict V :=
  match d with
  | [] => [(k, v)]
  | (k', v') :: d' =>
      if String.eqb k k' then (k', v) :: d' else (k', v') :: setitem d' k v
  end.

(** [del d[k]] *)
Definition delitem (d : dict V) (k : string) : dict V :=
  filter (fun kv => negb (String.eqb k (fst kv))) d.

(** [len(d)] *)
Definition len (d : dict V) : Z := Z.of_nat (List.length d).
End Dict.

Record session_state := mkState {
  balance : float;
  portfolio : dict Position;
  trade_log : list Trade;
  is_running : bool
}.

(** The state of a fresh session.  [balance] starts as the int
    [START_CAPITAL] and becomes a float with the first trade; the int takes
    part in comparisons and arithmetic through its exact float value. *)
Definition initial_state : session_state :=
  {| balance := float_of_int START_CAPITAL;
     portfolio := [];
     trade_log := [];
     is_running := false |}.

(** ** The exchange: market data as seen during one pass *)

(** A ticker as returned by [fetch_tickers]: the two fields the script reads. *)
Record Ticker : Set := mkTicker {
  symbol : string;
  quoteVolume : float
}.

(** One OHLCV row. *)
Record Candle : Set := mkCandle {
  timestamp : Z;
  open : float;
  high : float;
  low : float;
  close : float;
  volume : float
}.

(** The answers of the exchange.  [None] stands for a raised exception
    (network failure, unknown symbol, or a ticker without a volume, which
    makes the sort raise). *)
Record Exchange : Type := mkExchange {
  fetch_tickers : option (dict Ticker);
  fetch_ohlcv : string -> option (list Candle)
}.

(** ** Data engine (lines 30-49) *)

(** [k.endswith(suffix)] *)
Definition endswith (k suffix : string) : bool :=
  let n := String.length k in
  let m := String.length suffix in
  (m <=? n)%nat && String.eqb (substring (n - m) m k) suffix.

(** [sorted(values, key=lambda x: x['quoteVolume'], reverse=True)]: a stable
    sort by decreasing volume, for volumes that are numbers (among NaN
    volumes Python's order may be another one). *)
Fixpoint insert_desc (x : Ticker) (l : list Ticker) : list Ticker :=
  match l with
  | [] => [x]
  | y :: l' =>
      if quoteVolume x <? quoteVolume y then y :: insert_desc x l'
      else x :: l
  end.

Definition sorted_desc (l : list Ticker) : list Ticker :=
  fold_right insert_desc [] l.

Definition fetch_top_coins (exchange : Exchange) (limit : nat) : list string :=
  match fetch_tickers exchange with
  | Some tickers =>
      let valid_tickers := filter (fun kv => endswith (fst kv) "/USDT") tickers in
      let sorted_tickers := sorted_desc (map snd valid_tickers) in
      map symbol (firstn limit sorted_tickers)
  | None => []
  end.

(** A data frame is its list of rows; [pd.DataFrame()] has none. *)
Definition DataFrame : Set := list Candle.

Definition get_market_data (exchange : Exchange) (sym : string) : DataFrame :=
  match fetch_ohlcv exchange sym with
  | Some ohlcv => ohlcv
  | None => []
  end.

(** [df.empty] *)
Definition empty (df : DataFrame) : bool :=
  match df with
  | [] => true
  | _ :: _ => false
  end.

(** [df['close']] *)
Definition close_column (df : DataFrame) : list float := map close df.

(** [series.iloc[-1]].  Every use is behind a [df.empty] test, so the default
    is never returned. *)
Definition iloc_last (series : list float) : float := last series nan.

(** [series.rolling(window).mean().iloc[-1]]: NaN while fewer than [window]
    rows are available, otherwise the mean of the last [window] values (a NaN
    among them gives NaN).  pandas accumulates the window sum incrementally;
    here the values are added from the oldest to the newest, so the mean can
    differ from pandas' in its last digits.  The properties below rely only
    on the mean being NaN below [window] rows. *)
Definition rolling_mean_last (window : nat) (series : list float) : float :=
  if (List.length series <? window)%nat then nan
  else
    fold_left add (skipn (List.length series - window) series) 0
    / float_of_int (Z.of_nat window).

(** [round(x, 2)] on a NumPy float: scale by 100, round to the nearest integer
    with ties to even, scale back.  The integer rounding of a value below
    [2^52] in magnitude is obtained by adding and subtracting [2^52]. *)
Definition rint (y : float) : float :=
  let a := abs y in
  if (a <? 0x1p52) && (0 <? a) then
    let r := (a + 0x1p52) - 0x1p52 in
    if y <? 0 then - r else r
  else y.

Definition round2 (x : float) : float := rint (x * 100) / 100.

(** ** Trading logic *)

(** The file defines [run_strategy] twice.  The first definition (lines
    52-105) is the one bound to the name when the main loop calls it on line
    133; the second (lines 157-225) is bound only after that call. *)

Module Rev1.

(** Body of the [for symbol in top_coins] loop, lines 56-105. *)
Definition step (exchange : Exchange) (st : session_state) (sym : string)
  : session_state :=
  let df := get_market_data exchange sym in
  if empty df then st
  else
    let current_price := iloc_last (close_column df) in
    let sma_short := rolling_mean_last 5 (close_column df) in
    if negb (contains (portfolio st) sym)
       && (len (portfolio st) <? MAX_POSITIONS)%Z
    then
      if current_price >? sma_short then
        let qty := ALLOCATION_PER_TRADE / current_price in
        let cost := qty * current_price in
        if balance st >=? cost then
          {| balance := balance st - cost;
             portfolio :=
               setitem (portfolio st) sym
                       {| amt := qty; avg_price := current_price |};
             trade_log :=
               trade_log st ++
               [ {| Symbol := sym; Type_ := BUY; Price := current_price;
                    Qty := qty; PnL := 0 |} ];
             is_running := is_running st |}
        else st
      else st
    else
      (* [elif symbol in portfolio], with the position read on lines 87-88 *)
      match getitem (portfolio st) sym with
      | Some pos =>
          let entry_price := avg_price pos in
          let qty := amt pos in
          if current_price <? sma_short then
            let revenue := qty * current_price in
            let pnl := revenue - qty * entry_price in
            {| balance := balance st + revenue;
               portfolio := delitem (portfolio st) sym;
               trade_log :=
                 trade_log st ++
                 [ {| Symbol := sym; Type_ := SELL; Price := current_price;
                      Qty := qty; PnL := round2 pnl |} ];
               is_running := is_running st |}
          else st
      | None => st
      end.

Definition run_strategy (exchange : Exchange) (st : session_state)
  : session_state :=
  let top_coins := fetch_top_coins exchange 10 in
  fold_left (step exchange) top_coins st.

End Rev1.

Module Rev2.

(** Line 165. *)
Definition default_coins : list string :=
  ["BTC/USDT"; "ETH/USDT"; "SOL/USDT"; "DOGE/USDT"]%string.

(** Body of the loop, lines 168-222.  The boolean tells whether the body
    ended with [break].  The [st.toast] calls of lines 199 and 221 stand
    between the three mutations and the [break]; should one raise, the pass
    ends there too, with the same session state. *)
Definition step (exchange : Exchange) (st : session_state) (sym : string)
  : session_state * bool :=
  let df := get_market_data exchange sym in
  if empty df then (st, false)
  else
    let current_price := iloc_last (close_column df) in
    let sma_short := rolling_mean_last 5 (close_column df) in
    if negb (contains (portfolio st) sym)
       && (len (portfolio st) <? MAX_POSITIONS)%Z
    then
      if current_price >? sma_short then
        let qty := ALLOCATION_PER_TRADE / current_price in
        let cost := qty * current_price in
        if balance st >=? cost then
          ({| balance := balance st - cost;
              portfolio :=
                setitem (portfolio st) sym
                        {| amt := qty; avg_price := current_price |};
              trade_log :=
                trade_log st ++
                [ {| Symbol := sym; Type_ := BUY; Price := current_price;
                     Qty := qty; PnL := 0 |} ];
              is_running := is_running st |}, true)
        else (st, false)
      else (st, false)
    else
      (* [elif symbol in portfolio], with the position read on lines 204-205;
         the float nearest to the literal [1.001] is [0x1.004189374bc6ap+0] *)
      match getitem (portfolio st) sym with
      | Some pos =>
          let entry_price := avg_price pos in
          let qty := amt pos in
          if (current_price <? sma_short)
             || (current_price >? entry_price * 0x1.004189374bc6ap+0)
          then
            let revenue := qty * current_price in
            let pnl := revenue - qty * entry_price in
            ({| balance := balance st + revenue;
                portfolio := delitem (portfolio st) sym;
                trade_log :=
                  trade_log st ++
                  [ {| Symbol := sym; Type_ := SELL; Price := current_price;
                       Qty := qty; PnL := pnl |} ];
                is_running := is_running st |}, true)
          else (st, false)
      | None => (st, false)
      end.

(** The [for] loop with its [break]. *)
Fixpoint scan (exchange : Exchange) (top_coins : list string)
         (st : session_state) : session_state :=
  match top_coins with
  | [] => st
  | sym :: rest =>
      let (st', stop) := step exchange st sym in
      if stop then st' else scan exchange rest st'
  end.

Definition run_strategy (exchange : Exchange) (st : session_state)
  : session_state :=
  let top_coins := fetch_top_coins exchange 10 in
  let top_coins :=
    match top_coins with
    | [] => default_coins
    | _ :: _ => top_coins
    end in
  scan exchange top_coins st.

End Rev2.

(** ** Dashboard metrics (lines 120-123) *)

(** [sum([...])] starts from the int [0] and adds the positions in the
    portfolio's order.  The comprehension fetches the candles of a symbol
    twice, for the filter and for the price; the exchange answers both calls
    alike. *)
Definition current_holdings_val (exchange : Exchange) (st : session_state)
  : float :=
  fold_left add
    (map (fun sp : string * Position =>
            amt (snd sp)
            * iloc_last (close_column (get_market_data exchange (fst sp))))
         (filter (fun sp : string * Position =>
                    negb (empty (get_market_data exchange (fst sp))))
                 (portfolio st)))
    0.

Record Metrics : Set := mkMetrics {
  total_portfolio : float;
  cash_balance : float;
  active_positions : Z;
  pnl_total : float
}.

(** The metrics block reads the session state; it is written in
    state-passing style, returning the state it leaves behind. *)
Definition dashboard_metrics (exchange : Exchange) (st : session_state)
  : Metrics * session_state :=
  let holdings := current_holdings_val exchange st in
  let total := balance st + holdings in
  ({| total_portfolio := total;
      cash_balance := balance st;
      active_positions := len (portfolio st);
      pnl_total := total - float_of_int START_CAPITAL |}, st).

(** ** Main execution loop (lines 131-135) *)

(** One pass of the script while the bot runs.  On line 133 the name
    [run_strategy] still denotes the first definition. *)
Definition main_loop_pass (exchange : Exchange) (st : session_state)
  : session_state :=
  if is_running st then Rev1.run_strategy exchange st else st.

(** ** Sidebar buttons (lines 114-117) *)

Definition set_is_running (b : bool) (st : session_state) : session_state :=
  {| balance := balance st;
     portfolio := portfolio st;
     trade_log := trade_log st;
     is_running := b |}.

(** ** Vocabulary of the properties *)

(** A float seen through its specification is negative when it is a nonzero
    number (or an infinity) with the sign bit set. *)
Definition sf_negative (x : spec_float) : bool :=
  match x with
  | S754_infinity true | S754_finite true _ _ => true
  | _ => false
  end.

(** Every close price the exchange reports is nonnegative (and not NaN). *)
Definition nonneg_prices (exchange : Exchange) : Prop :=
  forall sym c, In c (get_market_data exchange sym) -> (0 <=? close c) = true.

Definition any_prices (exchange : Exchange) : Prop := True.

(** The session states the script can be in: the fresh state, then any
    number of button presses and loop bodies of either definition of
    [run_strategy], each against an exchange accepted by [ok]. *)
Inductive reachable (ok : Exchange -> Prop) : session_state -> Prop :=
| reach_initial : reachable ok initial_state
| reach_button (b : bool) (st : session_state) :
    reachable ok st -> reachable ok (set_is_running b st)
| reach_step1 (exchange : Exchange) (sym : string) (st : session_state) :
    ok exchange -> reachable ok st ->
    reachable ok (Rev1.step exchange st sym)
| reach_step2 (exchange : Exchange) (sym : string) (st : session_state) :
    ok exchange -> reachable ok st ->
    reachable ok (fst (Rev2.step exchange st sym)).

(** The cash invariant: the balance and every held quantity are not
    negative. *)
Definition cash_invariant (st : session_state) : Prop :=
  (balance st <? 0) = false
  /\ Forall (fun sp : string * Position => (amt (snd sp) <? 0) = false)
            (portfolio st).

(** The positions value as the specification words it: a position whose
    price is unavailable is valued at its average entry price. *)
Definition positions_value_with_fallback (exchange : Exchange)
           (st : session_state) : float :=
  fold_left add
    (map (fun sp : string * Position =>
            let df := get_market_data exchange (fst sp) in
            amt (snd sp)
            * (if empty df then avg_price (snd sp)
               else iloc_last (close_column df)))
         (portfolio st))
    0.

(** ** Markets used in the examples *)

(** Candles that closed at the given prices. *)
Definition candles (closes : list float) : list Candle :=
  map (fun c => {| timestamp := 0; open := c; high := c; low := c;
                   close := c; volume := 1 |}) closes.

(** A market that quotes the listed symbols, all with the same volume, so
    that the ranking keeps the listed order. *)
Definition market (quotes : dict (list float)) : Exchange :=
  {| fetch_tickers :=
       Some (map (fun q : string * list float =>
                    (fst q, {| symbol := fst q; quoteVolume := 1 |}))
                 quotes);
     fetch_ohlcv := fun sym => option_map candles (getitem quotes sym) |}.

(** The same market while the ticker request fails. *)
Definition market_without_ranking (quotes : dict (list float)) : Exchange :=
  {| fetch_tickers := None;
     fetch_ohlcv := fun sym => option_map candles (getitem quotes sym) |}.

Definition all_nonneg (quotes : dict (list float)) : bool :=
  forallb (fun q : string * list float => forallb (fun c => 0 <=? c) (snd q))
          quotes.

(** ** The loop body, branch by branch *)

(** The price and the average the loop body computes for a symbol (lines
    59-63, 174-175). *)
Definition current_price_of (exchange : Exchange) (sym : string) : float :=
  iloc_last (close_column (get_market_data exchange sym)).

Definition sma_short_of (exchange : Exchange) (sym : string) : float :=
  rolling_mean_last 5 (close_column (get_market_data exchange sym)).

(** The tests that lead to the purchase (lines 57 and 66-67): data, no open
    position, a free slot, a bullish signal. *)
Definition buy_attempted (exchange : Exchange) (st : session_state)
           (sym : string) : bool :=
  negb (empty (get_market_data exchange sym))
  && negb (contains (portfolio st) sym)
  && (len (portfolio st) <? MAX_POSITIONS)%Z
  && (current_price_of exchange sym >? sma_short_of exchange sym).

(** [cost] of lines 69-70. *)
Definition buy_cost (price : float) : float :=
  ALLOCATION_PER_TRADE / price * price.

(** The state a BUY leaves (lines 73-82, 189-198). *)
Definition after_buy (st : session_state) (sym : string) (price : float)
  : session_state :=
  {| balance := balance st - buy_cost price;
     portfolio :=
       setitem (portfolio st) sym
               {| amt := ALLOCATION_PER_TRADE / price; avg_price := price |};
     trade_log :=
       trade_log st ++
       [ {| Symbol := sym; Type_ := BUY; Price := price;
            Qty := ALLOCATION_PER_TRADE / price; PnL := 0 |} ];
     is_running := is_running st |}.

(** The state a SELL of the position [pos] leaves (lines 92-104, 209-220);
    [recorded] is what the log keeps of the profit or loss. *)
Definition after_sell (recorded : float -> float) (st : session_state)
           (sym : string) (pos : Position) (price : float) : session_state :=
  {| balance := balance st + amt pos * price;
     portfolio := delitem (portfolio st) sym;
     trade_log :=
       trade_log st ++
       [ {| Symbol := sym; Type_ := SELL; Price := price; Qty := amt pos;
            PnL := recorded (amt pos * price - amt pos * avg_price pos) |} ];
     is_running := is_running st |}.

Definition as_computed (pnl : float) : float := pnl.

(** The exit tests of the two definitions (lines 91 and 208).  The literal
    [1.001] is the binary64 value [0x1.004189374bc6ap+0]. *)
Definition sell_signal1 (exchange : Exchange) (sym : string) : bool :=
  current_price_of exchange sym <? sma_short_of exchange sym.

Definition profit_target (exchange : Exchange) (sym : string)
           (pos : Position) : bool :=
  current_price_of exchange sym >? avg_price pos * 0x1.004189374bc6ap+0.

Definition sell_signal2 (exchange : Exchange) (sym : string)
           (pos : Position) : bool :=
  sell_signal1 exchange sym || profit_target exchange sym pos.

(** ** Proof steps for the loop body *)

(** Unfolds the loop bodies and the names of their tests. *)
Ltac unfold_step :=
  unfold Rev1.step, Rev2.step, buy_attempted, sell_signal2, sell_signal1,
    profit_target, buy_cost, current_price_of, sma_short_of, gtb, geb in *.

(** Splits [buy_attempted = true] into its four tests. *)
Ltac split_guard H :=
  let He := fresh "He" in
  let Hn := fresh "Hn" in
  let Hl := fresh "Hl" in
  let Hs := fresh "Hs" in
  apply andb_prop in H as [H Hs];
  apply andb_prop in H as [H Hl];
  apply andb_prop in H as [He Hn];
  apply negb_true_iff in He; apply negb_true_iff in Hn.

(** ** Example markets and sessions *)

Local Open Scope string_scope.

(** One instrument whose last close, 100, is above its five-candle average. *)
Definition rising_to_100 : Exchange :=
  market [("AAA/USDT", [90; 90; 90; 90; 100])].

(** The session after the purchase of [AAA/USDT] at 100. *)
Definition holding_aaa : session_state :=
  Rev1.run_strategy rising_to_100 initial_state.

(** Tickers in the order the exchange lists them: three USDT pairs and one
    other pair, which has the largest volume. *)
Definition mixed_tickers : Exchange :=
  {| fetch_tickers :=
       Some [("ETH/USDT", {| symbol := "ETH/USDT"; quoteVolume := 5 |});
             ("BTC/USDT", {| symbol := "BTC/USDT"; quoteVolume := 9 |});
             ("ETH/BTC", {| symbol := "ETH/BTC"; quoteVolume := 100 |});
             ("SOL/USDT", {| symbol := "SOL/USDT"; quoteVolume := 5 |})];
     fetch_ohlcv := fun _ => None |}.

(** Two instruments, both bullish. *)
Definition two_rising : Exchange :=
  market [("AAA/USDT", [100; 100; 100; 100; 110]);
          ("BBB/USDT", [48; 48; 48; 48; 49])].

(** The ticker request fails while [BTC/USDT] is bullish. *)
Definition ranking_down : Exchange :=
  market_without_ranking [("BTC/USDT", [90; 90; 90; 90; 100])].

(** No candles for any symbol. *)
Definition no_quotes : Exchange := market [].

(** A single candle for [AAA/USDT], closing at twice the entry price. *)
Definition one_candle_at_200 : Exchange := market [("AAA/USDT", [200])].

(** The prices of the specification's scenarios A and B: entry at 110 above
    an average of 102, exit at 95 below an average of 99.8. *)
Definition rising_to_110 : Exchange :=
  market [("ABC/USDT", [100; 100; 100; 100; 110])].

Definition falling_to_95 : Exchange :=
  market [("ABC/USDT", [101; 101; 101; 101; 95])].

Definition bought_at_110 : session_state :=
  Rev1.run_strategy rising_to_110 initial_state.

Definition sold_at_95 : session_state :=
  Rev1.run_strategy falling_to_95 bought_at_110.

(** Entry at 250000 (one unit), exit one eighth below. *)
Definition rising_to_250000 : Exchange :=
  market [("ABC/USDT", [200000; 200000; 200000; 200000; 250000])].

Definition dipping_an_eighth : Exchange :=
  market [("ABC/USDT", [250002; 250002; 250002; 250002; 249999.875])].

Definition sold_an_eighth_lower : session_state :=
  Rev1.run_strategy dipping_an_eighth
    (Rev1.run_strategy rising_to_250000 initial_state).

(** Four instruments, all bullish at 49. *)
Definition four_at_49 : Exchange :=
  market [("A/USDT", [48; 48; 48; 48; 49]);
          ("B/USDT", [48; 48; 48; 48; 49]);
          ("C/USDT", [48; 48; 48; 48; 49]);
          ("D/USDT", [48; 48; 48; 48; 49])].

Definition after_four_at_49 : session_state :=
  Rev1.run_strategy four_at_49 initial_state.

(** Three passes with positive prices far outside any market: entry at
    [2^-1000], exit at 1024, entry at the smallest positive float. *)
Definition entry_at_tiny_price : Exchange :=
  market [("A/USDT", [0; 0; 0; 0; 0x1p-1000])].

Definition exit_at_1024 : Exchange :=
  market [("A/USDT", [0x1p20; 0x1p20; 0x1p20; 0x1p20; 0x1p10])].

Definition entry_at_smallest_price : Exchange :=
  market [("B/USDT", [0; 0; 0; 0; 0x1p-1074])].

Definition after_overflow : session_state :=
  Rev1.run_strategy entry_at_smallest_price
    (Rev1.run_strategy exit_at_1024
       (Rev1.run_strategy entry_at_tiny_price initial_state)).

Local Close Scope string_scope.

(** The session state with another portfolio. *)
Definition with_portfolio (st : session_state) (d : dict Position)
  : session_state :=
  {| balance := balance st;
     portfolio := d;
     trade_log := trade_log st;
     is_running := is_running st |}.

(** ** Visualisations (lines 137-156) *)

(** What the chart column shows: the candles of the first key of the
    portfolio (lines 143-148), nothing when that symbol has no candles, or
    the notice of line 150 while no position is open. *)
Inductive ChartPanel : Set :=
| Candlestick (symbol_to_chart : string) (df : DataFrame)
| NoChart
| WaitingForFirstTrade.

Definition live_market_chart (exchange : Exchange) (st : session_state)
  : ChartPanel :=
  match portfolio st with
  | [] => WaitingForFirstTrade
  | (symbol_to_chart, _) :: _ =>
      let df := get_market_data exchange symbol_to_chart in
      if empty df then NoChart else Candlestick symbol_to_chart df
  end.

(** The log column: nothing for an empty log, otherwise the records with the
    newest first ([log_df.iloc[::-1]]). *)
Definition trade_log_panel (st : session_state) : option (list Trade) :=
  match trade_log st with
  | [] => None
  | _ :: _ => Some (rev (trade_log st))
  end.

(** ** One run of the script (lines 112-156) *)

(** Which sidebar buttons were pressed for this run. *)
Record Clicks : Set := mkClicks {
  start_clicked : bool;
  stop_clicked : bool
}.

(** Lines 114-117. *)
Definition sidebar (c : Clicks) (st : session_state) : session_state :=
  let st := if start_clicked c then set_is_running true st else st in
  if stop_clicked c then set_is_running false st else st.

(** What a run renders.  While the bot runs, [st.rerun()] on line 135 ends
    the run before the panels of lines 137-156. *)
Record Page : Set := mkPage {
  metrics : Metrics;
  panels : option (ChartPanel * option (list Trade))
}.

Definition script_run (c : Clicks) (exchange : Exchange) (st : session_state)
  : Page * session_state :=
  let st := sidebar c st in
  let (m, st) := dashboard_metrics exchange st in
  if is_running st then
    ({| metrics := m; panels := None |}, Rev1.run_strategy exchange st)
  else
    ({| metrics := m;
        panels := Some (live_market_chart exchange st, trade_log_panel st) |},
     st).

(** Successive runs, each with its clicks and the market of the moment. *)
Definition script_runs (runs : list (Clicks * Exchange)) (st : session_state)
  : session_state :=
  fold_left (fun st r => snd (script_run (fst r) (snd r) st)) runs st.

(** ** Vocabulary of the further properties *)

(** [a] does not have a smaller volume than [b]. *)
Definition volume_not_below (a b : Ticker) : Prop :=
  (quoteVolume a <? quoteVolume b) = false.

(** The test of the dict comprehension on line 35. *)
Definition is_usdt_pair (kv : string * Ticker) : bool :=
  endswith (fst kv) "/USDT".

(** The number of records of one type in a log. *)
Definition count_type (ty : TradeType) (log : list Trade) : Z :=
  Z.of_nat
    (List.length
       (filter (fun t => match Type_ t, ty with
                         | BUY, BUY | SELL, SELL => true
                         | _, _ => false
                         end) log)).

(** The BUY record that opened a position. *)
Definition opening_record (sym : string) (pos : Position) : Trade :=
  {| Symbol := sym; Type_ := BUY; Price := avg_price pos; Qty := amt pos;
     PnL := 0 |}.

(** The ledger invariant: one position per instrument, as many positions as
    BUYs not yet followed by their SELL, and every position sized by its
    entry price and backed by its BUY record. *)
Definition ledger_invariant (st : session_state) : Prop :=
  NoDup (map fst (portfolio st))
  /\ len (portfolio st)
     = (count_type BUY (trade_log st) - count_type SELL (trade_log st))%Z
  /\ Forall (fun sp : string * Position =>
               amt (snd sp) = ALLOCATION_PER_TRADE / avg_price (snd sp)
               /\ In (opening_record (fst sp) (snd sp)) (trade_log st))
            (portfolio st).

(** The cash and the positions recomputed from a trade log alone, record by
    record from the fresh session: a BUY takes [Qty * Price] from the cash
    and opens the position, a SELL returns [Qty * Price] and closes it. *)
Definition replay_cash (log : list Trade) : float :=
  fold_left
    (fun cash t =>
       match Type_ t with
       | BUY => cash - Qty t * Price t
       | SELL => cash + Qty t * Price t
       end)
    log (balance initial_state).

Definition replay_positions (log : list Trade) : dict Position :=
  fold_left
    (fun d t =>
       match Type_ t with
       | BUY => setitem d (Symbol t) {| amt := Qty t; avg_price := Price t |}
       | SELL => delitem d (Symbol t)
       end)
    log [].

(** Every SELL record of the log comes after a BUY record of the same symbol
    and quantity. *)
Definition sells_follow_buys (log : list Trade) : Prop :=
  forall before t after,
    log = before ++ t :: after ->
    Type_ t = SELL ->
    exists b, In b before /\ Type_ b = BUY /\ Symbol b = Symbol t
              /\ Qty b = Qty t.

(** ** Refused purchases *)

(** The result of a purchase as the specification words it (its
    [open_position]): a failure named after its cause, or success. *)
Inductive LedgerResult : Set :=
| Opened
| InsufficientFunds
| PositionLimitReached
| DuplicatePosition.

Definition open_position_result (st : session_state) (sym : string)
           (quantity price : float) : LedgerResult :=
  if balance st <? quantity * price then InsufficientFunds
  else if (MAX_POSITIONS <=? len (portfolio st))%Z then PositionLimitReached
  else if contains (portfolio st) sym then DuplicatePosition
  else Opened.

(** Four instruments that stay at 49: none is bullish. *)
Definition flat_at_49 : Exchange :=
  market [("A/USDT", [49; 49; 49; 49; 49]);
          ("B/USDT", [49; 49; 49; 49; 49]);
          ("C/USDT", [49; 49; 49; 49; 49]);
          ("D/USDT", [49; 49; 49; 49; 49])]%string.

(** * Properties *)

(** ** Floats

    The facts about binary64 arithmetic that the ledger relies on, derived
    from the specification of the primitive operations. *)

Lemma SFltb_zero (x : spec_float) :
  SFltb x (S754_zero false) = sf_negative x.
Proof. destruct x as [[]|[]| |[] m e]; reflexivity. Qed.

Lemma ltb_zero (x : float) : (x <? 0) = sf_negative (Prim2SF x).
Proof. rewrite ltb_spec. apply SFltb_zero. Qed.

Lemma ltb_nan_r (x : float) : (x <? nan) = false.
Proof. rewrite ltb_spec. destruct (Prim2SF x) as [?|?| |? ? ?]; reflexivity. Qed.

Lemma ltb_nan_l (x : float) : (nan <? x) = false.
Proof. rewrite ltb_spec. destruct (Prim2SF x) as [?|?| |? ? ?]; reflexivity. Qed.

Lemma compare_cont_Eq_antisym (p q : positive) :
  Pos.compare_cont Eq q p = CompOpp (Pos.compare_cont Eq p q).
Proof. symmetry. exact (Pos.compare_cont_antisym p q Eq). Qed.

Lemma SFcompare_antisym (x y : spec_float) :
  SFcompare y x = option_map CompOpp (SFcompare x y).
Proof.
  destruct x as [[]|[]| |[] mx ex], y as [[]|[]| |[] my ey]; try reflexivity;
    cbn [SFcompare option_map]; f_equal;
    rewrite (Z.compare_antisym ex ey), (compare_cont_Eq_antisym mx my);
    destruct (ex ?= ey)%Z; cbn [CompOpp]; try reflexivity;
    destruct (Pos.compare_cont Eq mx my); reflexivity.
Qed.

Lemma ltb_geb_false (a b : float) : (a <? b) = true -> (b <=? a) = false.
Proof.
  rewrite ltb_spec, leb_spec. unfold SFltb, SFleb.
  rewrite (SFcompare_antisym (Prim2SF a) (Prim2SF b)).
  destruct (SFcompare (Prim2SF a) (Prim2SF b)) as [[]|]; cbn; congruence.
Qed.

Lemma binary_round_aux_sign (s : bool) (m e : Z) (l : location) :
  sf_negative (binary_round_aux prec emax s m e l) = true -> s = true.
Proof.
  unfold binary_round_aux.
  destruct (shr_fexp prec emax m e l) as [mrs' e'].
  destruct (shr_fexp prec emax _ e' loc_Exact) as [mrs'' e''].
  destruct (shr_m mrs''); [discriminate | | discriminate].
  destruct (e'' <=? emax - prec)%Z, s; cbn; congruence.
Qed.

Lemma binary_normalize_nonneg (m e : Z) :
  (0 <= m)%Z -> sf_negative (binary_normalize prec emax m e false) = false.
Proof.
  intros Hm. destruct m as [|p|p]; [reflexivity | | lia].
  cbn [binary_normalize]. unfold binary_round.
  destruct (shl_align p e _) as [mz ez].
  destruct (sf_negative _) eqn:E; [|reflexivity].
  apply binary_round_aux_sign in E. discriminate.
Qed.

Lemma SFmul_nonneg (x y : spec_float) :
  sf_negative x = false -> sf_negative y = false ->
  sf_negative (SFmul prec emax x y) = false.
Proof.
  destruct x as [[]|[]| |[] mx ex], y as [[]|[]| |[] my ey];
    try reflexivity; try discriminate.
  intros _ _. unfold SFmul.
  destruct (sf_negative _) eqn:E; [|reflexivity].
  apply binary_round_aux_sign in E. discriminate.
Qed.

Lemma SFadd_nonneg (x y : spec_float) :
  sf_negative x = false -> sf_negative y = false ->
  sf_negative (SFadd prec emax x y) = false.
Proof.
  destruct x as [[]|[]| |[] mx ex], y as [[]|[]| |[] my ey];
    try reflexivity; try discriminate.
  intros _ _. unfold SFadd, cond_Zopp.
  apply binary_normalize_nonneg. lia.
Qed.

Lemma digits2_pos_bounds (m : positive) :
  (2 ^ (Zpos (digits2_pos m) - 1) <= Zpos m < 2 ^ Zpos (digits2_pos m))%Z.
Proof.
  induction m as [p IH|p IH|]; cbn [digits2_pos].
  - rewrite Pos2Z.inj_succ.
    replace (Z.succ (Zpos (digits2_pos p)) - 1)%Z
      with (Z.succ (Zpos (digits2_pos p) - 1)) by lia.
    rewrite !Z.pow_succ_r by lia. lia.
  - rewrite Pos2Z.inj_succ.
    replace (Z.succ (Zpos (digits2_pos p)) - 1)%Z
      with (Z.succ (Zpos (digits2_pos p) - 1)) by lia.
    rewrite !Z.pow_succ_r by lia. lia.
  - cbn. lia.
Qed.

Lemma shl_align_value (m : positive) (e ez : Z) :
  (ez <= e)%Z ->
  Zpos (fst (shl_align m e ez)) = (Zpos m * 2 ^ (e - ez))%Z.
Proof.
  intros Hle. unfold shl_align.
  destruct (ez - e)%Z as [|d|d] eqn:D; try lia.
  - replace (e - ez)%Z with 0%Z by lia. cbn [fst]. lia.
  - replace (e - ez)%Z with (Zpos d) by lia. cbn [fst].
    change (Pos.iter xO m d) with (shift_pos d m).
    rewrite shift_pos_correct. rewrite Zpower_pos_nat, Zpower_nat_Z.
    rewrite positive_nat_Z. lia.
Qed.

Lemma bounded_fexp (m : positive) (e : Z) :
  bounded prec emax m e = true ->
  Z.max (Zpos (digits2_pos m) + e - 53) (-1074) = e.
Proof.
  unfold bounded, canonical_mantissa, fexp, emin. intros H.
  apply andb_prop in H. destruct H as [H _].
  apply Z.eqb_eq in H. exact H.
Qed.

(** Two canonical mantissas, the first with the smaller exponent (or the same
    exponent and the smaller mantissa), stay ordered once aligned. *)
Lemma aligned_le (m1 m2 : positive) (e1 e2 ez : Z) :
  bounded prec emax m1 e1 = true -> bounded prec emax m2 e2 = true ->
  (ez <= e1)%Z -> (ez <= e2)%Z ->
  (e1 < e2 \/ (e1 = e2 /\ Zpos m1 <= Zpos m2))%Z ->
  (Zpos (fst (shl_align m1 e1 ez)) <= Zpos (fst (shl_align m2 e2 ez)))%Z.
Proof.
  intros B1 B2 H1 H2 Hord.
  rewrite !shl_align_value by assumption.
  apply bounded_fexp in B1, B2.
  destruct Hord as [Hlt | [-> Hm]].
  - pose proof (digits2_pos_bounds m1) as [_ U1].
    pose proof (digits2_pos_bounds m2) as [L2 _].
    assert (D2 : Zpos (digits2_pos m2) = 53%Z) by lia.
    assert (D1 : (Zpos (digits2_pos m1) <= 53)%Z) by lia.
    rewrite D2 in L2.
    assert (U1' : (Zpos m1 < 2 ^ 53)%Z).
    { eapply Z.lt_le_trans; [exact U1|]. apply Z.pow_le_mono_r; lia. }
    replace (e2 - ez)%Z with ((e2 - e1) + (e1 - ez))%Z by lia.
    rewrite Z.pow_add_r by lia.
    assert (P : (2 ^ 1 <= 2 ^ (e2 - e1))%Z) by (apply Z.pow_le_mono_r; lia).
    assert (Q : (0 < 2 ^ (e1 - ez))%Z) by (apply Z.pow_pos_nonneg; lia).
    change (2 ^ (53 - 1))%Z with 4503599627370496%Z in L2.
    change (2 ^ 53)%Z with 9007199254740992%Z in U1'.
    change (2 ^ 1)%Z with 2%Z in P.
    rewrite Z.mul_assoc. apply Z.mul_le_mono_nonneg_r; [lia|].
    apply Z.le_trans with (Zpos m2 * 2)%Z; [lia|].
    apply Z.mul_le_mono_nonneg_l; lia.
  - apply Z.mul_le_mono_nonneg_r; [|exact Hm].
    apply Z.pow_nonneg. lia.
Qed.

Lemma SFsub_nonneg (x y : spec_float) :
  valid_binary x = true -> valid_binary y = true ->
  SFleb y x = true ->
  sf_negative (SFsub prec emax x y) = false.
Proof.
  destruct x as [[]|[]| |[] mx ex], y as [[]|[]| |[] my ey];
    try reflexivity; try discriminate;
    cbn [valid_binary]; intros Bx By; unfold SFleb, SFcompare; intros Hle;
    unfold SFsub, cond_Zopp; apply binary_normalize_nonneg.
  - (* both negative: [|x| <= |y|] *)
    assert (Zpos (fst (shl_align mx ex (Z.min ex ey)))
            <= Zpos (fst (shl_align my ey (Z.min ex ey))))%Z; [|lia].
    apply aligned_le; try assumption; try lia.
    destruct (Z.compare_spec ey ex) as [-> | Hlt | Hgt]; try discriminate.
    + right. split; [reflexivity|].
      change (Pos.compare_cont Eq my mx) with (my ?= mx)%positive in Hle.
      destruct (Pos.compare_spec my mx); cbn in Hle; try discriminate; lia.
    + left. lia.
  - (* [x] negative, [y] positive: excluded by [y <= x] *)
    pose proof (Pos2Z.is_pos (fst (shl_align mx ex (Z.min ex ey)))).
    pose proof (Pos2Z.is_pos (fst (shl_align my ey (Z.min ex ey)))).
    lia.
  - (* both positive: [y <= x] *)
    assert (Zpos (fst (shl_align my ey (Z.min ex ey)))
            <= Zpos (fst (shl_align mx ex (Z.min ex ey))))%Z; [|lia].
    apply aligned_le; try assumption; try lia.
    destruct (Z.compare_spec ey ex) as [-> | Hlt | Hgt]; try discriminate.
    + right. split; [reflexivity|].
      change (Pos.compare_cont Eq my mx) with (my ?= mx)%positive in Hle.
      destruct (Pos.compare_spec my mx); cbn in Hle; try discriminate; lia.
    + left. lia.
Qed.

Lemma sub_nonneg (b c : float) : (c <=? b) = true -> (b - c <? 0) = false.
Proof.
  rewrite leb_spec, ltb_zero, sub_spec. intros H.
  apply SFsub_nonneg; [apply Prim2SF_valid | apply Prim2SF_valid | exact H].
Qed.

Lemma add_nonneg (a b : float) :
  (a <? 0) = false -> (b <? 0) = false -> (a + b <? 0) = false.
Proof. rewrite !ltb_zero, add_spec. apply SFadd_nonneg. Qed.

Lemma mul_nonneg (a b : float) :
  (a <? 0) = false -> (b <? 0) = false -> (a * b <? 0) = false.
Proof. rewrite !ltb_zero, mul_spec. apply SFmul_nonneg. Qed.

Lemma leb_zero_nonneg (p : float) : (0 <=? p) = true -> (p <? 0) = false.
Proof.
  rewrite leb_spec, ltb_zero. change (Prim2SF 0) with (S754_zero false).
  destruct (Prim2SF p) as [[]|[]| |[] m e]; cbn; congruence.
Qed.

(** A quantity bought at a nonnegative price is not negative, provided that
    its cost could be compared with the balance (which excludes the price
    [-0.0], where the quantity is [-infinity] and the cost is NaN). *)
Lemma qty_nonneg (a p b : float) :
  (a <? 0) = false -> (0 <? a) = true ->
  (0 <=? p) = true -> (a / p * p <=? b) = true ->
  (a / p <? 0) = false.
Proof.
  rewrite !ltb_zero, !leb_spec, !ltb_spec, mul_spec, div_spec.
  change (Prim2SF 0) with (S754_zero false).
  destruct (Prim2SF a) as [[]|[]| |[] ma ea], (Prim2SF p) as [[]|[]| |[] mp ep];
    try discriminate; try reflexivity; intros _ _ _ _.
  unfold SF64div, SFdiv.
  destruct (SFdiv_core_binary _ _ _ _ _ _) as [[mz ez] lz].
    destruct (sf_negative _) eqn:E; [|reflexivity].
    apply binary_round_aux_sign in E. discriminate.
Qed.


Lemma allocation_value : ALLOCATION_PER_TRADE = 250000.
Proof. reflexivity. Qed.

Lemma allocation_positive :
  (ALLOCATION_PER_TRADE <? 0) = false /\ (0 <? ALLOCATION_PER_TRADE) = true.
Proof. split; reflexivity. Qed.

(** ** Dictionaries *)

Section DictFacts.
Context {V : Type}.
Implicit Types (d : dict V) (k : string) (v : V).

Lemma contains_false_getitem d k : contains d k = false -> getitem d k = None.
Proof.
  induction d as [|[k' v'] d IH]; cbn; [reflexivity|].
  destruct (String.eqb k k'); cbn; [discriminate | exact IH].
Qed.

Lemma getitem_Some_contains d k v : getitem d k = Some v -> contains d k = true.
Proof.
  destruct (contains d k) eqn:E; [reflexivity|].
  rewrite (contains_false_getitem _ _ E). discriminate.
Qed.

Lemma getitem_In d k v : getitem d k = Some v -> In (k, v) d.
Proof.
  induction d as [|[k' v'] d IH]; cbn; [discriminate|].
  destruct (String.eqb k k') eqn:E.
  - apply String.eqb_eq in E. intros [= ->]. left. now subst.
  - intros H. right. now apply IH.
Qed.

Lemma getitem_setitem_same d k v : getitem (setitem d k v) k = Some v.
Proof.
  induction d as [|[k' v'] d IH]; cbn.
  - now rewrite String.eqb_refl.
  - destruct (String.eqb k k') eqn:E; cbn; rewrite E; [reflexivity | exact IH].
Qed.

Lemma contains_delitem_same d k : contains (delitem d k) k = false.
Proof.
  induction d as [|[k' v'] d IH]; cbn; [reflexivity|].
  destruct (String.eqb k k') eqn:E; cbn; [exact IH|].
  rewrite E. exact IH.
Qed.

Lemma len_setitem_new d k v :
  contains d k = false -> len (setitem d k v) = (len d + 1)%Z.
Proof.
  unfold len. intros H.
  enough (List.length (setitem d k v) = S (List.length d)) as -> by lia.
  induction d as [|[k' v'] d IH]; cbn in *; [reflexivity|].
  destruct (String.eqb k k'); cbn in *; [discriminate|].
  now rewrite IH.
Qed.

Lemma len_delitem_le d k : (len (delitem d k) <= len d)%Z.
Proof.
  unfold len, delitem. pose proof (filter_length_le
    (fun kv : string * V => negb (String.eqb k (fst kv))) d). lia.
Qed.

Lemma Forall_setitem (Q : V -> Prop) d k v :
  Forall (fun kv => Q (snd kv)) d -> Q v ->
  Forall (fun kv => Q (snd kv)) (setitem d k v).
Proof.
  intros Hd Hv. induction Hd as [|[k' v'] d Hx Hd IH]; cbn.
  - constructor; [exact Hv | constructor].
  - destruct (String.eqb k k'); constructor; assumption.
Qed.

Lemma Forall_delitem (P : string * V -> Prop) d k :
  Forall P d -> Forall P (delitem d k).
Proof.
  intros Hd. apply Forall_forall. intros x Hx.
  apply filter_In in Hx. destruct Hx as [Hx _].
  revert x Hx. now apply Forall_forall.
Qed.

End DictFacts.

(** ** Series *)

Lemma last_In (A : Type) (l : list A) (d : A) : l <> [] -> In (last l d) l.
Proof.
  induction l as [|x [|y l] IH]; intros H; [congruence | now left |].
  right. apply IH. discriminate.
Qed.

Lemma iloc_last_close (df : DataFrame) :
  empty df = false ->
  exists c, In c df /\ iloc_last (close_column df) = close c.
Proof.
  intros H. unfold iloc_last, close_column.
  assert (Hne : map close df <> []) by (destruct df; [discriminate | discriminate]).
  pose proof (last_In _ (map close df) nan Hne) as Hin.
  apply in_map_iff in Hin. destruct Hin as [c [Hc Hin]].
  exists c. split; [exact Hin | now symmetry].
Qed.

Lemma rolling_mean_short (window : nat) (series : list float) :
  (List.length series < window)%nat -> rolling_mean_last window series = nan.
Proof.
  intros H. unfold rolling_mean_last.
  apply Nat.ltb_lt in H. now rewrite H.
Qed.

Lemma current_price_nonneg (exchange : Exchange) (sym : string) :
  nonneg_prices exchange ->
  empty (get_market_data exchange sym) = false ->
  (0 <=? current_price_of exchange sym) = true.
Proof.
  intros Hok Hne. unfold current_price_of.
  destruct (iloc_last_close _ Hne) as [c [Hin ->]].
  exact (Hok sym c Hin).
Qed.


(** ** The embedding on small inputs *)

Local Open Scope string_scope.

Example fetch_top_coins_ranks_usdt_pairs_by_volume :
  fetch_top_coins mixed_tickers 10 = ["BTC/USDT"; "ETH/USDT"; "SOL/USDT"]%string
  /\ fetch_top_coins mixed_tickers 2 = ["BTC/USDT"; "ETH/USDT"]%string.
Proof. split; reflexivity. Qed.

Example rolling_mean_of_last_five :
  rolling_mean_last 5 [1; 2; 3; 4; 5; 6] = 4
  /\ rolling_mean_last 5 [1; 2; 3; 4] = nan
  /\ rolling_mean_last 5 [1; 2; nan; 4; 5] = nan.
Proof. repeat split; reflexivity. Qed.

Example rint_ties_to_even :
  rint 2.5 = 2 /\ rint 3.5 = 4 /\ rint (-2.5) = -2 /\ rint 0.75 = 1
  /\ rint (-12.5) = -12 /\ round2 1.25 = 1.25.
Proof. repeat split; reflexivity. Qed.

Example dict_keeps_insertion_order :
  setitem (setitem [("a", 1); ("b", 2)] "c" 3) "a" 4
  = [("a", 4); ("b", 2); ("c", 3)]%string
  /\ delitem [("a", 1); ("b", 2); ("c", 3)] "b" = [("a", 1); ("c", 3)]%string
  /\ getitem [("a", 1); ("b", 2)] "b" = Some 2
  /\ contains [("a", 1); ("b", 2)] "c" = false.
Proof. repeat split; reflexivity. Qed.

(** Scenario A of the specification: entry at 110, the cash becomes 750000
    and the quantity is [250000 / 110]. *)
Example scenario_entry :
  balance bought_at_110 = 750000
  /\ portfolio bought_at_110
     = [("ABC/USDT"%string, {| amt := 250000 / 110; avg_price := 110 |})]
  /\ map Type_ (trade_log bought_at_110) = [BUY].
Proof. repeat split; reflexivity. Qed.

(** Scenario B: exit at 95 with a loss; the position is removed and the cash
    grows by the quantity times 95. *)
Example scenario_exit :
  portfolio sold_at_95 = []
  /\ balance sold_at_95 = 750000 + 250000 / 110 * 95
  /\ map Type_ (trade_log sold_at_95) = [BUY; SELL]
  /\ (250000 / 110 * 95 - 250000 / 110 * 110 <? 0)%float = true.
Proof. repeat split; reflexivity. Qed.

(** The dashboard with AAA held (2500 units) and last quoted at 100. *)
Example dashboard_with_one_position :
  fst (dashboard_metrics rising_to_100 holding_aaa)
  = {| total_portfolio := 1000000; cash_balance := 750000;
       active_positions := 1; pnl_total := 0 |}.
Proof. reflexivity. Qed.

Local Close Scope string_scope.

(** ** The loop body *)

Lemma rev1_step_buy (exchange : Exchange) (st : session_state) (sym : string) :
  buy_attempted exchange st sym = true ->
  (balance st >=? buy_cost (current_price_of exchange sym)) = true ->
  Rev1.step exchange st sym = after_buy st sym (current_price_of exchange sym).
Proof.
  unfold_step. intros H Hc.
  split_guard H. rewrite He, Hn, Hl, Hs, Hc. reflexivity.
Qed.

Lemma rev2_step_buy (exchange : Exchange) (st : session_state) (sym : string) :
  buy_attempted exchange st sym = true ->
  (balance st >=? buy_cost (current_price_of exchange sym)) = true ->
  Rev2.step exchange st sym
  = (after_buy st sym (current_price_of exchange sym), true).
Proof.
  unfold_step. intros H Hc.
  split_guard H. rewrite He, Hn, Hl, Hs, Hc. reflexivity.
Qed.

Lemma rev1_step_sell (exchange : Exchange) (st : session_state) (sym : string)
      (pos : Position) :
  empty (get_market_data exchange sym) = false ->
  getitem (portfolio st) sym = Some pos ->
  sell_signal1 exchange sym = true ->
  Rev1.step exchange st sym
  = after_sell round2 st sym pos (current_price_of exchange sym).
Proof.
  unfold_step. intros He Hg Hs.
  rewrite He, (getitem_Some_contains _ _ _ Hg), Hg, Hs. reflexivity.
Qed.

Lemma rev2_step_sell (exchange : Exchange) (st : session_state) (sym : string)
      (pos : Position) :
  empty (get_market_data exchange sym) = false ->
  getitem (portfolio st) sym = Some pos ->
  sell_signal2 exchange sym pos = true ->
  Rev2.step exchange st sym
  = (after_sell as_computed st sym pos (current_price_of exchange sym), true).
Proof.
  unfold_step. intros He Hg Hs.
  rewrite He, (getitem_Some_contains _ _ _ Hg), Hg, Hs. reflexivity.
Qed.

(** The loop body of the first definition does one of three things. *)
Lemma rev1_step_cases (exchange : Exchange) (st : session_state)
      (sym : string) :
  Rev1.step exchange st sym = st
  \/ (buy_attempted exchange st sym = true
      /\ (balance st >=? buy_cost (current_price_of exchange sym)) = true
      /\ Rev1.step exchange st sym
         = after_buy st sym (current_price_of exchange sym))
  \/ (exists pos,
        empty (get_market_data exchange sym) = false
        /\ getitem (portfolio st) sym = Some pos
        /\ sell_signal1 exchange sym = true
        /\ Rev1.step exchange st sym
           = after_sell round2 st sym pos (current_price_of exchange sym)).
Proof.
  destruct (buy_attempted exchange st sym) eqn:Hb.
  - destruct (balance st >=? buy_cost (current_price_of exchange sym)) eqn:Hc.
    + right. left. auto using rev1_step_buy.
    + left. unfold_step.
      split_guard Hb. rewrite He, Hn, Hl, Hs, Hc. reflexivity.
  - destruct (empty (get_market_data exchange sym)) eqn:He.
    { left. unfold Rev1.step. now rewrite He. }
    destruct (getitem (portfolio st) sym) as [pos|] eqn:Hg.
    + destruct (sell_signal1 exchange sym) eqn:Hs.
      * right. right. exists pos. auto using rev1_step_sell.
      * left. unfold_step.
        rewrite He, (getitem_Some_contains _ _ _ Hg), Hg, Hs. reflexivity.
    + left. unfold_step. rewrite He in *. rewrite Hg.
      destruct (contains (portfolio st) sym); cbn in *; [reflexivity|].
      destruct (len (portfolio st) <? MAX_POSITIONS)%Z; cbn in *;
        [|reflexivity].
      rewrite Hb. reflexivity.
Qed.

(** The loop body of the second definition: it ends with [break] exactly
    when it traded. *)
Lemma rev2_step_cases (exchange : Exchange) (st : session_state)
      (sym : string) :
  Rev2.step exchange st sym = (st, false)
  \/ (buy_attempted exchange st sym = true
      /\ (balance st >=? buy_cost (current_price_of exchange sym)) = true
      /\ Rev2.step exchange st sym
         = (after_buy st sym (current_price_of exchange sym), true))
  \/ (exists pos,
        empty (get_market_data exchange sym) = false
        /\ getitem (portfolio st) sym = Some pos
        /\ sell_signal2 exchange sym pos = true
        /\ Rev2.step exchange st sym
           = (after_sell as_computed st sym pos
                         (current_price_of exchange sym), true)).
Proof.
  destruct (buy_attempted exchange st sym) eqn:Hb.
  - destruct (balance st >=? buy_cost (current_price_of exchange sym)) eqn:Hc.
    + right. left. auto using rev2_step_buy.
    + left. unfold_step.
      split_guard Hb. rewrite He, Hn, Hl, Hs, Hc. reflexivity.
  - destruct (empty (get_market_data exchange sym)) eqn:He.
    { left. unfold Rev2.step. now rewrite He. }
    destruct (getitem (portfolio st) sym) as [pos|] eqn:Hg.
    + destruct (sell_signal2 exchange sym pos) eqn:Hs.
      * right. right. exists pos. auto using rev2_step_sell.
      * left. unfold_step.
        rewrite He, (getitem_Some_contains _ _ _ Hg), Hg, Hs. reflexivity.
    + left. unfold_step. rewrite He in *. rewrite Hg.
      destruct (contains (portfolio st) sym); cbn in *; [reflexivity|].
      destruct (len (portfolio st) <? MAX_POSITIONS)%Z; cbn in *;
        [|reflexivity].
      rewrite Hb. reflexivity.
Qed.

Lemma rev1_step_no_funds (exchange : Exchange) (st : session_state)
      (sym : string) :
  buy_attempted exchange st sym = true ->
  (balance st >=? buy_cost (current_price_of exchange sym)) = false ->
  Rev1.step exchange st sym = st.
Proof.
  unfold_step. intros H Hc.
  split_guard H. rewrite He, Hn, Hl, Hs, Hc. reflexivity.
Qed.

Lemma rev2_step_no_funds (exchange : Exchange) (st : session_state)
      (sym : string) :
  buy_attempted exchange st sym = true ->
  (balance st >=? buy_cost (current_price_of exchange sym)) = false ->
  Rev2.step exchange st sym = (st, false).
Proof.
  unfold_step. intros H Hc.
  split_guard H. rewrite He, Hn, Hl, Hs, Hc. reflexivity.
Qed.

Lemma buy_attempted_inv (exchange : Exchange) (st : session_state)
      (sym : string) :
  buy_attempted exchange st sym = true ->
  empty (get_market_data exchange sym) = false
  /\ contains (portfolio st) sym = false
  /\ (len (portfolio st) < MAX_POSITIONS)%Z
  /\ (current_price_of exchange sym >? sma_short_of exchange sym) = true.
Proof.
  unfold buy_attempted. intros H. split_guard H.
  apply Z.ltb_lt in Hl. auto.
Qed.

(** ** Passes *)

Lemma reachable_fold1 (ok : Exchange -> Prop) (exchange : Exchange)
      (syms : list string) (st : session_state) :
  ok exchange -> reachable ok st ->
  reachable ok (fold_left (Rev1.step exchange) syms st).
Proof.
  intros Hok. revert st.
  induction syms as [|sym syms IH]; intros st Hst; cbn; [exact Hst|].
  apply IH. now apply reach_step1.
Qed.

Lemma reachable_scan (ok : Exchange -> Prop) (exchange : Exchange)
      (syms : list string) (st : session_state) :
  ok exchange -> reachable ok st ->
  reachable ok (Rev2.scan exchange syms st).
Proof.
  intros Hok. revert st.
  induction syms as [|sym syms IH]; intros st Hst; cbn; [exact Hst|].
  pose proof (reach_step2 ok exchange sym st Hok Hst) as Hstep.
  destruct (Rev2.step exchange st sym) as [st' stop]; cbn in Hstep.
  destruct stop; [exact Hstep | now apply IH].
Qed.

Lemma reachable_run1 (ok : Exchange -> Prop) (exchange : Exchange)
      (st : session_state) :
  ok exchange -> reachable ok st ->
  reachable ok (Rev1.run_strategy exchange st).
Proof. apply reachable_fold1. Qed.

Lemma reachable_run2 (ok : Exchange -> Prop) (exchange : Exchange)
      (st : session_state) :
  ok exchange -> reachable ok st ->
  reachable ok (Rev2.run_strategy exchange st).
Proof. apply reachable_scan. Qed.

Lemma reachable_main_loop (ok : Exchange -> Prop) (exchange : Exchange)
      (st : session_state) :
  ok exchange -> reachable ok st ->
  reachable ok (main_loop_pass exchange st).
Proof.
  intros Hok Hst. unfold main_loop_pass.
  destruct (is_running st); [now apply reachable_run1 | exact Hst].
Qed.

Lemma market_nonneg (quotes : dict (list float)) :
  all_nonneg quotes = true -> nonneg_prices (market quotes).
Proof.
  intros Hall sym c. unfold get_market_data, market; cbn.
  destruct (getitem quotes sym) as [closes|] eqn:Hg; cbn; [|intros []].
  apply getitem_In in Hg.
  unfold all_nonneg in Hall. rewrite forallb_forall in Hall.
  specialize (Hall _ Hg). cbn in Hall. rewrite forallb_forall in Hall.
  unfold candles. rewrite in_map_iff. intros [x [<- Hx]]. cbn.
  now apply Hall.
Qed.

(** ** Diversification cap *)

Lemma len_after_buy (st : session_state) (sym : string) (price : float) :
  contains (portfolio st) sym = false ->
  len (portfolio (after_buy st sym price)) = (len (portfolio st) + 1)%Z.
Proof. intros H. cbn. now apply len_setitem_new. Qed.

Lemma len_after_sell (recorded : float -> float) (st : session_state)
      (sym : string) (pos : Position) (price : float) :
  (len (portfolio (after_sell recorded st sym pos price))
   <= len (portfolio st))%Z.
Proof. cbn. apply len_delitem_le. Qed.

Lemma rev1_step_len (exchange : Exchange) (st : session_state) (sym : string) :
  (len (portfolio st) <= MAX_POSITIONS)%Z ->
  (len (portfolio (Rev1.step exchange st sym)) <= MAX_POSITIONS)%Z.
Proof.
  intros Hle.
  destruct (rev1_step_cases exchange st sym)
    as [-> | [(Hb & _ & ->) | (pos & _ & _ & _ & ->)]].
  - exact Hle.
  - apply buy_attempted_inv in Hb. destruct Hb as (_ & Hn & Hl & _).
    rewrite len_after_buy by exact Hn. lia.
  - pose proof (len_after_sell round2 st sym pos
                               (current_price_of exchange sym)). lia.
Qed.

Lemma rev2_step_len (exchange : Exchange) (st : session_state) (sym : string) :
  (len (portfolio st) <= MAX_POSITIONS)%Z ->
  (len (portfolio (fst (Rev2.step exchange st sym))) <= MAX_POSITIONS)%Z.
Proof.
  intros Hle.
  destruct (rev2_step_cases exchange st sym)
    as [-> | [(Hb & _ & ->) | (pos & _ & _ & _ & ->)]]; cbn [fst].
  - exact Hle.
  - apply buy_attempted_inv in Hb. destruct Hb as (_ & Hn & Hl & _).
    rewrite len_after_buy by exact Hn. lia.
  - pose proof (len_after_sell as_computed st sym pos
                               (current_price_of exchange sym)). lia.
Qed.

(** C9: in every session state the script can reach, the number of open
    positions is at most [MAX_POSITIONS]; a loop body that increases the
    number is a BUY, executed with the number strictly below the maximum. *)
Theorem open_positions_bounded (st : session_state) :
  reachable any_prices st ->
  (len (portfolio st) <= MAX_POSITIONS)%Z
  /\ (forall exchange sym,
        (len (portfolio st)
         < len (portfolio (Rev1.step exchange st sym)))%Z ->
        (len (portfolio st) < MAX_POSITIONS)%Z
        /\ Rev1.step exchange st sym
           = after_buy st sym (current_price_of exchange sym))
  /\ (forall exchange sym,
        (len (portfolio st)
         < len (portfolio (fst (Rev2.step exchange st sym))))%Z ->
        (len (portfolio st) < MAX_POSITIONS)%Z
        /\ Rev2.step exchange st sym
           = (after_buy st sym (current_price_of exchange sym), true)).
Proof.
  intros Hreach. split; [|split].
  - induction Hreach as [|b st _ IH|exchange sym st _ _ IH|exchange sym st _ _ IH].
    + cbn. unfold MAX_POSITIONS. lia.
    + exact IH.
    + now apply rev1_step_len.
    + now apply rev2_step_len.
  - intros exchange sym Hlt.
    destruct (rev1_step_cases exchange st sym)
      as [E | [(Hb & _ & E) | (pos & _ & _ & _ & E)]]; rewrite E in Hlt.
    + lia.
    + apply buy_attempted_inv in Hb. now split.
    + pose proof (len_after_sell round2 st sym pos
                                 (current_price_of exchange sym)). lia.
  - intros exchange sym Hlt.
    destruct (rev2_step_cases exchange st sym)
      as [E | [(Hb & _ & E) | (pos & _ & _ & _ & E)]];
      rewrite E in Hlt; cbn [fst] in Hlt.
    + lia.
    + apply buy_attempted_inv in Hb. now split.
    + pose proof (len_after_sell as_computed st sym pos
                                 (current_price_of exchange sym)). lia.
Qed.

Lemma holding_aaa_reachable (ok : Exchange -> Prop) :
  ok rising_to_100 -> reachable ok holding_aaa.
Proof. intros Hok. apply reachable_run1; [exact Hok | constructor]. Qed.

Lemma open_positions_bounded_witness :
  reachable any_prices holding_aaa
  /\ (len (portfolio holding_aaa) <= MAX_POSITIONS)%Z.
Proof.
  assert (H : reachable any_prices holding_aaa)
    by (apply holding_aaa_reachable; exact I).
  split; [exact H | exact (proj1 (open_positions_bounded holding_aaa H))].
Defined.

(** ** Cash *)

Lemma after_buy_invariant (st : session_state) (sym : string) (price : float) :
  cash_invariant st ->
  (0 <=? price) = true ->
  (balance st >=? buy_cost price) = true ->
  cash_invariant (after_buy st sym price).
Proof.
  intros [Hb Hp] Hprice Hfunds. split; cbn.
  - now apply sub_nonneg.
  - apply (Forall_setitem (fun pos => (amt pos <? 0) = false)); [exact Hp|].
    cbn. destruct allocation_positive as [Ha Ha'].
    exact (qty_nonneg ALLOCATION_PER_TRADE price (balance st) Ha Ha' Hprice Hfunds).
Qed.

Lemma after_sell_invariant (recorded : float -> float) (st : session_state)
      (sym : string) (pos : Position) (price : float) :
  cash_invariant st ->
  (0 <=? price) = true ->
  getitem (portfolio st) sym = Some pos ->
  cash_invariant (after_sell recorded st sym pos price).
Proof.
  intros [Hb Hp] Hprice Hg. split; cbn.
  - apply add_nonneg; [exact Hb|].
    apply mul_nonneg; [|now apply leb_zero_nonneg].
    apply getitem_In in Hg. rewrite Forall_forall in Hp.
    exact (Hp _ Hg).
  - now apply Forall_delitem.
Qed.

Lemma rev1_step_invariant (exchange : Exchange) (st : session_state)
      (sym : string) :
  nonneg_prices exchange -> cash_invariant st ->
  cash_invariant (Rev1.step exchange st sym).
Proof.
  intros Hok Hinv.
  destruct (rev1_step_cases exchange st sym)
    as [-> | [(Hb & Hc & ->) | (pos & He & Hg & _ & ->)]].
  - exact Hinv.
  - apply buy_attempted_inv in Hb. destruct Hb as (He & _).
    apply after_buy_invariant; auto using current_price_nonneg.
  - apply after_sell_invariant; auto using current_price_nonneg.
Qed.

Lemma rev2_step_invariant (exchange : Exchange) (st : session_state)
      (sym : string) :
  nonneg_prices exchange -> cash_invariant st ->
  cash_invariant (fst (Rev2.step exchange st sym)).
Proof.
  intros Hok Hinv.
  destruct (rev2_step_cases exchange st sym)
    as [-> | [(Hb & Hc & ->) | (pos & He & Hg & _ & ->)]]; cbn [fst].
  - exact Hinv.
  - apply buy_attempted_inv in Hb. destruct Hb as (He & _).
    apply after_buy_invariant; auto using current_price_nonneg.
  - apply after_sell_invariant; auto using current_price_nonneg.
Qed.

Lemma reachable_cash_invariant (st : session_state) :
  reachable nonneg_prices st -> cash_invariant st.
Proof.
  induction 1 as [|b st _ IH|exchange sym st Hok _ IH|exchange sym st Hok _ IH].
  - split; [reflexivity | constructor].
  - exact IH.
  - now apply rev1_step_invariant.
  - now apply rev2_step_invariant.
Qed.

Lemma not_negative_number (x : float) :
  (x <? 0) = false -> (x =? x) = true -> (0 <=? x) = true.
Proof.
  rewrite ltb_zero, FloatAxioms.eqb_spec, leb_spec.
  change (Prim2SF 0) with (S754_zero false).
  destruct (Prim2SF x) as [[]|[]| |[] m e]; cbn; congruence.
Qed.


(** C5 (as amended): in every session state reached with nonnegative
    prices the cash balance is not negative, and it is at least zero
    whenever it is a number (not NaN). *)
Theorem cash_never_negative (st : session_state) :
  reachable nonneg_prices st ->
  (balance st <? 0) = false
  /\ ((balance st =? balance st) = true -> (0 <=? balance st) = true).
Proof.
  intros Hreach. apply reachable_cash_invariant in Hreach.
  destruct Hreach as [Hb _]. split; [exact Hb|].
  now apply not_negative_number.
Qed.

Lemma cash_never_negative_witness :
  reachable nonneg_prices holding_aaa
  /\ (balance holding_aaa <? 0) = false
  /\ (0 <=? balance holding_aaa) = true.
Proof.
  assert (H : reachable nonneg_prices holding_aaa).
  { apply holding_aaa_reachable. apply market_nonneg. reflexivity. }
  split; [exact H|].
  destruct (cash_never_negative holding_aaa H) as [Hneg Hnum].
  split; [exact Hneg | apply Hnum; reflexivity].
Defined.

(** C5 (as stated) fails: three passes with positive prices leave a cash
    balance that is NaN, for which [cash >= 0] is false.  The sale at 1024
    of a quantity bought at [2^-1000] overflows to infinity, and the next
    purchase, whose cost is infinite too, subtracts infinity from it. *)
Lemma cash_nan_after_overflow :
  reachable nonneg_prices after_overflow
  /\ map Type_ (trade_log after_overflow) = [BUY; SELL; BUY]
  /\ (0 <=? balance after_overflow) = false.
Proof.
  split; [|split; reflexivity].
  unfold after_overflow.
  repeat (apply reachable_run1; [apply market_nonneg; reflexivity|]).
  constructor.
Qed.

(** ** Insufficient funds *)

Lemma rev1_step_not_attempted (exchange : Exchange) (st : session_state)
      (sym : string) :
  buy_attempted exchange st sym = false ->
  getitem (portfolio st) sym = None ->
  Rev1.step exchange st sym = st.
Proof.
  intros Hb Hg.
  destruct (rev1_step_cases exchange st sym)
    as [E | [(Hb' & _) | (pos & _ & Hg' & _)]]; [exact E | congruence ..].
Qed.

Lemma rev2_step_not_attempted (exchange : Exchange) (st : session_state)
      (sym : string) :
  buy_attempted exchange st sym = false ->
  getitem (portfolio st) sym = None ->
  Rev2.step exchange st sym = (st, false).
Proof.
  intros Hb Hg.
  destruct (rev2_step_cases exchange st sym)
    as [E | [(Hb' & _) | (pos & _ & Hg' & _)]]; [exact E | congruence ..].
Qed.

(** C8 (as amended): a purchase whose cost exceeds the cash is not executed,
    by either definition: the balance, the portfolio and the trade log stay
    as they are, and the second definition goes on scanning.  Nothing is
    reported: the loop body ends as it does for any instrument that is not
    held and for which no purchase is attempted (no candles, no free slot,
    no bullish signal). *)
Theorem buy_without_funds_is_a_silent_skip (exchange : Exchange)
        (st : session_state) (sym : string) :
  buy_attempted exchange st sym = true ->
  (balance st <? buy_cost (current_price_of exchange sym)) = true ->
  Rev1.step exchange st sym = st
  /\ Rev2.step exchange st sym = (st, false)
  /\ (forall (other : Exchange) (skipped : string),
        buy_attempted other st skipped = false ->
        getitem (portfolio st) skipped = None ->
        Rev1.step exchange st sym = Rev1.step other st skipped
        /\ Rev2.step exchange st sym = Rev2.step other st skipped).
Proof.
  intros Hb Hlt. apply ltb_geb_false in Hlt.
  rewrite (rev1_step_no_funds _ _ _ Hb Hlt), (rev2_step_no_funds _ _ _ Hb Hlt).
  repeat split.
  - symmetry. now apply rev1_step_not_attempted.
  - symmetry. now apply rev2_step_not_attempted.
Qed.

Lemma buy_without_funds_is_a_silent_skip_witness :
  buy_attempted four_at_49 after_four_at_49 "D/USDT" = true
  /\ (balance after_four_at_49 <? buy_cost 49) = true
  /\ Rev1.step four_at_49 after_four_at_49 "D/USDT" = after_four_at_49
  /\ Rev2.step four_at_49 after_four_at_49 "D/USDT" = (after_four_at_49, false)
  /\ Rev1.step four_at_49 after_four_at_49 "D/USDT"
     = Rev1.step no_quotes after_four_at_49 "E/USDT".
Proof.
  split; [reflexivity | split; [reflexivity|]].
  destruct (buy_without_funds_is_a_silent_skip four_at_49 after_four_at_49
              "D/USDT" eq_refl eq_refl) as (H1 & H2 & H3).
  split; [exact H1 | split; [exact H2|]].
  exact (proj1 (H3 no_quotes "E/USDT"%string eq_refl eq_refl)).
Defined.

(** C8 (as stated) fails: with three positions bought at 49 the cash is
    below the cost of a fourth, and the purchase of [D/USDT] is refused;
    the specification's result for it is [InsufficientFunds].  The loop
    body of either definition ends exactly as it does on a market where
    [D/USDT] is not bullish and no purchase is attempted: no failure is
    reported. *)
Lemma refused_buy_reports_nothing :
  buy_attempted four_at_49 after_four_at_49 "D/USDT" = true
  /\ open_position_result after_four_at_49 "D/USDT"
                          (ALLOCATION_PER_TRADE / 49) 49
     = InsufficientFunds
  /\ buy_attempted flat_at_49 after_four_at_49 "D/USDT" = false
  /\ Rev1.step four_at_49 after_four_at_49 "D/USDT"
     = Rev1.step flat_at_49 after_four_at_49 "D/USDT"
  /\ Rev2.step four_at_49 after_four_at_49 "D/USDT"
     = Rev2.step flat_at_49 after_four_at_49 "D/USDT".
Proof. repeat split; reflexivity. Qed.


(** ** One pass over the ranked instruments *)

(** The second definition stops at the first trade: either no instrument
    traded and the state is unchanged, or the pass is the loop body of the
    first instrument that trades, and the instruments after it are not
    looked at. *)
Lemma rev2_scan_stops_at_first_trade (exchange : Exchange)
      (syms : list string) (st : session_state) :
  (Forall (fun sym => Rev2.step exchange st sym = (st, false)) syms
   /\ Rev2.scan exchange syms st = st)
  \/ (exists before sym after,
        syms = before ++ sym :: after
        /\ Forall (fun sym' => Rev2.step exchange st sym' = (st, false)) before
        /\ snd (Rev2.step exchange st sym) = true
        /\ Rev2.scan exchange syms st = fst (Rev2.step exchange st sym)).
Proof.
  induction syms as [|sym syms IH]; [left; split; [constructor | reflexivity]|].
  cbn [Rev2.scan].
  destruct (Rev2.step exchange st sym) as [st' stop] eqn:E.
  destruct stop.
  - right. exists [], sym, syms. rewrite E. repeat split. constructor.
  - assert (st' = st) as ->.
    { destruct (rev2_step_cases exchange st sym)
        as [E' | [(_ & _ & E') | (pos & _ & _ & _ & E')]];
        rewrite E' in E; congruence. }
    destruct IH as [[Hall Hscan] | (before & sym' & after & -> & Hall & Hstop & Hscan)].
    + left. split; [constructor; assumption | exact Hscan].
    + right. exists (sym :: before), sym', after.
      repeat split; [constructor; assumption | exact Hstop | exact Hscan].
Qed.

Lemma rev2_step_log (exchange : Exchange) (st : session_state) (sym : string) :
  snd (Rev2.step exchange st sym) = true ->
  exists t, trade_log (fst (Rev2.step exchange st sym)) = trade_log st ++ [t].
Proof.
  destruct (rev2_step_cases exchange st sym)
    as [E | [(_ & _ & E) | (pos & _ & _ & _ & E)]]; rewrite E; cbn;
    [discriminate | eexists; reflexivity | eexists; reflexivity].
Qed.

(** A pass of the second definition adds at most one record to the log. *)
Lemma rev2_run_strategy_at_most_one_trade (exchange : Exchange)
      (st : session_state) :
  trade_log (Rev2.run_strategy exchange st) = trade_log st
  \/ exists t, trade_log (Rev2.run_strategy exchange st) = trade_log st ++ [t].
Proof.
  unfold Rev2.run_strategy.
  match goal with |- context [Rev2.scan exchange ?l st] =>
    destruct (rev2_scan_stops_at_first_trade exchange l st)
      as [[_ ->] | (before & sym & after & _ & _ & Hstop & ->)]
  end.
  - now left.
  - right. now apply rev2_step_log.
Qed.

(** C1: a pass of the second definition of [run_strategy] ends at the first
    trade and adds at most one record to the log, whatever the market and
    the session.  The first definition, the one the main loop calls, has no
    [break]: with two bullish instruments in the ranking one pass executes
    two BUYs, where the second definition executes one. *)
Theorem one_trade_per_pass_only_in_second_definition (exchange : Exchange)
        (st : session_state) :
  (trade_log (Rev2.run_strategy exchange st) = trade_log st
   \/ exists t,
        trade_log (Rev2.run_strategy exchange st) = trade_log st ++ [t])
  /\ map Type_ (trade_log (Rev1.run_strategy two_rising initial_state))
     = [BUY; BUY]
  /\ map Type_
       (trade_log (main_loop_pass two_rising (set_is_running true initial_state)))
     = [BUY; BUY]
  /\ map Type_ (trade_log (Rev2.run_strategy two_rising initial_state))
     = [BUY].
Proof.
  split; [apply rev2_run_strategy_at_most_one_trade|].
  repeat split; reflexivity.
Qed.

(** ** Empty ranking *)

Lemma fetch_top_coins_failure (exchange : Exchange) (limit : nat) :
  fetch_tickers exchange = None -> fetch_top_coins exchange limit = [].
Proof. unfold fetch_top_coins. now intros ->. Qed.

(** With an empty ranking the second definition scans its default list. *)
Lemma rev2_run_strategy_fallback (exchange : Exchange) (st : session_state) :
  fetch_top_coins exchange 10 = [] ->
  Rev2.run_strategy exchange st = Rev2.scan exchange Rev2.default_coins st.
Proof. unfold Rev2.run_strategy. now intros ->. Qed.

(** With an empty ranking the first definition scans nothing. *)
Lemma rev1_run_strategy_empty_ranking (exchange : Exchange)
      (st : session_state) :
  fetch_top_coins exchange 10 = [] -> Rev1.run_strategy exchange st = st.
Proof. unfold Rev1.run_strategy. now intros ->. Qed.

(** C4: when the ticker request fails, or returns no ticker, the second
    definition of [run_strategy] scans its four default instruments.  The
    first definition, the one the main loop calls, has no list to fall back
    to: it scans nothing and leaves the session as it is, also when
    [BTC/USDT] is bullish and the second definition buys it. *)
Theorem fallback_only_in_second_definition
        (ohlcv : string -> option (list Candle)) (st : session_state) :
  let failed := {| fetch_tickers := None; fetch_ohlcv := ohlcv |} in
  let nothing := {| fetch_tickers := Some []; fetch_ohlcv := ohlcv |} in
  Rev2.run_strategy failed st = Rev2.scan failed Rev2.default_coins st
  /\ Rev2.run_strategy nothing st = Rev2.scan nothing Rev2.default_coins st
  /\ Rev1.run_strategy failed st = st
  /\ Rev1.run_strategy nothing st = st
  /\ map (fun t => (Symbol t, Type_ t))
         (trade_log (Rev2.run_strategy ranking_down initial_state))
     = [("BTC/USDT"%string, BUY)]
  /\ main_loop_pass ranking_down (set_is_running true initial_state)
     = set_is_running true initial_state.
Proof.
  intros failed nothing.
  split; [now apply rev2_run_strategy_fallback|].
  split; [now apply rev2_run_strategy_fallback|].
  split; [now apply rev1_run_strategy_empty_ranking|].
  split; [now apply rev1_run_strategy_empty_ranking|].
  split; reflexivity.
Qed.


(** ** Portfolio valuation *)

(** C2 (as amended): the dashboard metrics leave the session state as it
    is, and the holdings value is built position by position, in the
    portfolio's order: a position without candles adds nothing, a position
    with candles adds its quantity times the last close. *)
Theorem holdings_value_is_pure_and_skips_unpriced (exchange : Exchange)
        (st : session_state) (d : dict Position) (sym : string)
        (pos : Position) :
  snd (dashboard_metrics exchange st) = st
  /\ current_holdings_val exchange (with_portfolio st []) = 0
  /\ current_holdings_val exchange (with_portfolio st (d ++ [(sym, pos)]))
     = if empty (get_market_data exchange sym)
       then current_holdings_val exchange (with_portfolio st d)
       else current_holdings_val exchange (with_portfolio st d)
            + amt pos * current_price_of exchange sym.
Proof.
  repeat split.
  unfold current_holdings_val. cbn [portfolio with_portfolio].
  rewrite filter_app. cbn [filter fst].
  destruct (empty (get_market_data exchange sym)); cbn [negb].
  - now rewrite app_nil_r.
  - rewrite map_app, fold_left_app. reflexivity.
Qed.

(** C2 (as stated) fails: with no candles for the one open position
    (2500 units bought at 100) the holdings value is 0; the valuation at the
    average entry price would be 250000. *)
Lemma unpriced_position_is_omitted :
  portfolio holding_aaa
  = [("AAA/USDT"%string, {| amt := 2500; avg_price := 100 |})]
  /\ empty (get_market_data no_quotes "AAA/USDT") = true
  /\ current_holdings_val no_quotes holding_aaa = 0
  /\ positions_value_with_fallback no_quotes holding_aaa = 250000
  /\ (current_holdings_val no_quotes holding_aaa
      =? positions_value_with_fallback no_quotes holding_aaa) = false.
Proof. repeat split; reflexivity. Qed.

(** ** Short candle histories *)

Lemma sell_signal1_short (exchange : Exchange) (sym : string) :
  (List.length (get_market_data exchange sym) < 5)%nat ->
  sell_signal1 exchange sym = false.
Proof.
  intros H. unfold sell_signal1, sma_short_of.
  rewrite rolling_mean_short; [apply ltb_nan_r|].
  unfold close_column. now rewrite length_map.
Qed.

Lemma buy_attempted_short (exchange : Exchange) (st : session_state)
      (sym : string) :
  (List.length (get_market_data exchange sym) < 5)%nat ->
  buy_attempted exchange st sym = false.
Proof.
  intros H. unfold buy_attempted, sma_short_of, gtb.
  rewrite rolling_mean_short; [rewrite ltb_nan_l; apply andb_false_r|].
  unfold close_column. now rewrite length_map.
Qed.

(** C3 (as amended): with fewer than five candles the first definition
    leaves the session state as it is; the second buys nothing, and leaves
    the state as it is unless the instrument is held and its price is above
    the entry price times 1.001, in which case it sells. *)
Theorem short_history_skips (exchange : Exchange) (st : session_state)
        (sym : string) :
  (List.length (get_market_data exchange sym) < 5)%nat ->
  Rev1.step exchange st sym = st
  /\ match getitem (portfolio st) sym with
     | Some pos =>
         if negb (empty (get_market_data exchange sym))
            && profit_target exchange sym pos
         then Rev2.step exchange st sym
              = (after_sell as_computed st sym pos
                            (current_price_of exchange sym), true)
         else Rev2.step exchange st sym = (st, false)
     | None => Rev2.step exchange st sym = (st, false)
     end.
Proof.
  intros Hshort.
  pose proof (sell_signal1_short exchange sym Hshort) as Hs1.
  pose proof (buy_attempted_short exchange st sym Hshort) as Hb.
  split.
  - destruct (rev1_step_cases exchange st sym)
      as [E | [(Hb' & _) | (pos & _ & _ & Hs & _)]]; [exact E | congruence ..].
  - destruct (getitem (portfolio st) sym) as [pos|] eqn:Hg.
    + destruct (empty (get_market_data exchange sym)) eqn:He; cbn [negb andb].
      { unfold Rev2.step. now rewrite He. }
      destruct (profit_target exchange sym pos) eqn:Hp.
      * apply rev2_step_sell; auto.
        unfold sell_signal2. rewrite Hp. apply orb_true_r.
      * destruct (rev2_step_cases exchange st sym)
          as [E | [(Hb' & _) | (pos' & _ & Hg' & Hs & _)]];
          [exact E | congruence |].
        assert (pos' = pos) as -> by congruence.
        unfold sell_signal2 in Hs. rewrite Hs1, Hp in Hs. discriminate.
    + destruct (rev2_step_cases exchange st sym)
        as [E | [(Hb' & _) | (pos' & _ & Hg' & _)]]; [exact E | congruence ..].
Qed.

Lemma short_history_skips_witness :
  (List.length (get_market_data one_candle_at_200 "AAA/USDT") < 5)%nat
  /\ Rev1.step one_candle_at_200 holding_aaa "AAA/USDT" = holding_aaa
  /\ Rev2.step one_candle_at_200 holding_aaa "AAA/USDT"
     = (after_sell as_computed holding_aaa "AAA/USDT"
                   {| amt := 2500; avg_price := 100 |} 200, true).
Proof.
  assert (H : (List.length (get_market_data one_candle_at_200 "AAA/USDT")
               < 5)%nat) by (cbn; lia).
  split; [exact H|].
  exact (short_history_skips one_candle_at_200 holding_aaa "AAA/USDT" H).
Defined.

(** C3 (as stated) fails on the second definition: [AAA/USDT] is held at an
    entry price of 100, a single candle is available, it closes at 200, and
    the loop body sells the position. *)
Lemma short_history_sold_by_second_definition :
  List.length (get_market_data one_candle_at_200 "AAA/USDT") = 1%nat
  /\ getitem (portfolio holding_aaa) "AAA/USDT"
     = Some {| amt := 2500; avg_price := 100 |}
  /\ Rev2.step one_candle_at_200 holding_aaa "AAA/USDT"
     = (after_sell as_computed holding_aaa "AAA/USDT"
                   {| amt := 2500; avg_price := 100 |} 200, true)
  /\ map Type_ (trade_log (Rev2.run_strategy one_candle_at_200 holding_aaa))
     = [BUY; SELL]
  /\ balance (Rev2.run_strategy one_candle_at_200 holding_aaa) = 1250000.
Proof. repeat split; reflexivity. Qed.


(** ** Trades *)

Lemma getitem_after_buy (st : session_state) (sym : string) (price : float) :
  getitem (portfolio (after_buy st sym price)) sym
  = Some {| amt := ALLOCATION_PER_TRADE / price; avg_price := price |}.
Proof. cbn. apply getitem_setitem_same. Qed.

(** C6 (as amended): a BUY of an instrument at [p_buy] followed by its SELL
    at [p_sell], with nothing in between, leaves the cash
    [(cash - q * p_buy) + q * p_sell], where [q] is the quantity bought and
    each operation is rounded to binary64. *)
Theorem buy_then_sell_cash (exchange1 exchange2 : Exchange)
        (st : session_state) (sym : string) :
  buy_attempted exchange1 st sym = true ->
  (balance st >=? buy_cost (current_price_of exchange1 sym)) = true ->
  empty (get_market_data exchange2 sym) = false ->
  let p_buy := current_price_of exchange1 sym in
  let p_sell := current_price_of exchange2 sym in
  let q := ALLOCATION_PER_TRADE / p_buy in
  (sell_signal1 exchange2 sym = true ->
   balance (Rev1.step exchange2 (Rev1.step exchange1 st sym) sym)
   = balance st - q * p_buy + q * p_sell)
  /\ (sell_signal2 exchange2 sym {| amt := q; avg_price := p_buy |} = true ->
      balance (fst (Rev2.step exchange2 (fst (Rev2.step exchange1 st sym)) sym))
      = balance st - q * p_buy + q * p_sell).
Proof.
  intros Hb Hc He p_buy p_sell q. split; intros Hs.
  - rewrite (rev1_step_buy _ _ _ Hb Hc).
    rewrite (rev1_step_sell _ _ _ _ He (getitem_after_buy _ _ _) Hs).
    reflexivity.
  - rewrite (rev2_step_buy _ _ _ Hb Hc). cbn [fst].
    rewrite (rev2_step_sell _ _ _ _ He (getitem_after_buy _ _ _) Hs).
    reflexivity.
Qed.

Lemma buy_then_sell_cash_witness :
  balance
    (Rev1.step falling_to_95
       (Rev1.step rising_to_110 initial_state "ABC/USDT") "ABC/USDT")
  = balance initial_state - 250000 / 110 * 110 + 250000 / 110 * 95
  /\ balance
       (fst (Rev2.step falling_to_95
               (fst (Rev2.step rising_to_110 initial_state "ABC/USDT"))
               "ABC/USDT"))
     = balance initial_state - 250000 / 110 * 110 + 250000 / 110 * 95.
Proof.
  pose proof (buy_then_sell_cash rising_to_110 falling_to_95 initial_state
                "ABC/USDT" eq_refl eq_refl eq_refl) as [H1 H2].
  split; [exact (H1 eq_refl) | exact (H2 eq_refl)].
Defined.

(** C6 (as stated) fails: buying at 110 and selling at 95 (the prices of
    the specification's scenarios) leaves less cash than
    [cash_before + (p_sell - p_buy) * q], the two differing in the last
    binary digit. *)
Lemma buy_sell_cash_differs_from_closed_form :
  map (fun t => (Type_ t, Price t, Qty t)) (trade_log sold_at_95)
  = [(BUY, 110, ALLOCATION_PER_TRADE / 110);
     (SELL, 95, ALLOCATION_PER_TRADE / 110)]
  /\ (balance sold_at_95
      <? balance initial_state + (95 - 110) * (ALLOCATION_PER_TRADE / 110))
     = true.
Proof. split; reflexivity. Qed.

(** C7 (as amended): a SELL credits the cash with the held quantity times
    the price, removes the position and appends one SELL record; the record
    keeps the profit or loss [quantity * price - quantity * avg_price]
    rounded to two decimals in the first definition, and as computed in the
    second. *)
Theorem sell_credits_cash_and_logs (exchange : Exchange) (st : session_state)
        (sym : string) (pos : Position) :
  empty (get_market_data exchange sym) = false ->
  getitem (portfolio st) sym = Some pos ->
  let price := current_price_of exchange sym in
  let pnl := amt pos * price - amt pos * avg_price pos in
  (sell_signal1 exchange sym = true ->
   let st' := Rev1.step exchange st sym in
   balance st' = balance st + amt pos * price
   /\ portfolio st' = delitem (portfolio st) sym
   /\ contains (portfolio st') sym = false
   /\ trade_log st'
      = trade_log st ++
        [ {| Symbol := sym; Type_ := SELL; Price := price; Qty := amt pos;
             PnL := round2 pnl |} ])
  /\ (sell_signal2 exchange sym pos = true ->
      let st' := fst (Rev2.step exchange st sym) in
      balance st' = balance st + amt pos * price
      /\ portfolio st' = delitem (portfolio st) sym
      /\ contains (portfolio st') sym = false
      /\ trade_log st'
         = trade_log st ++
           [ {| Symbol := sym; Type_ := SELL; Price := price; Qty := amt pos;
                PnL := pnl |} ]).
Proof.
  intros He Hg price pnl. split; intros Hs st'; subst st'.
  - rewrite (rev1_step_sell _ _ _ _ He Hg Hs). cbn.
    repeat split. apply contains_delitem_same.
  - rewrite (rev2_step_sell _ _ _ _ He Hg Hs). cbn.
    repeat split. apply contains_delitem_same.
Qed.

Lemma sell_credits_cash_and_logs_witness :
  balance (Rev1.step falling_to_95 bought_at_110 "ABC/USDT")
  = balance bought_at_110 + ALLOCATION_PER_TRADE / 110 * 95
  /\ portfolio (Rev1.step falling_to_95 bought_at_110 "ABC/USDT") = []
  /\ trade_log (fst (Rev2.step falling_to_95 bought_at_110 "ABC/USDT"))
     = trade_log bought_at_110 ++
       [ {| Symbol := "ABC/USDT"; Type_ := SELL; Price := 95;
            Qty := ALLOCATION_PER_TRADE / 110;
            PnL := ALLOCATION_PER_TRADE / 110 * 95
                   - ALLOCATION_PER_TRADE / 110 * 110 |} ].
Proof.
  pose proof (sell_credits_cash_and_logs falling_to_95 bought_at_110
                "ABC/USDT"
                {| amt := ALLOCATION_PER_TRADE / 110; avg_price := 110 |}
                eq_refl eq_refl) as [H1 H2].
  destruct (H1 eq_refl) as (Hb & Hp & _).
  destruct (H2 eq_refl) as (_ & _ & _ & Hl).
  split; [exact Hb | split; [exact Hp | exact Hl]].
Defined.

(** C7 (as stated) fails on the first definition: one unit bought at 250000
    and sold at 249999.875 has a loss of 0.125, and the record keeps
    [round(-0.125, 2)], which is larger. *)
Lemma first_definition_logs_rounded_pnl :
  map (fun t => (Type_ t, Price t, Qty t)) (trade_log sold_an_eighth_lower)
  = [(BUY, 250000, 1); (SELL, 249999.875, 1)]
  /\ 1 * 249999.875 - 1 * 250000 = -0.125
  /\ map PnL (trade_log sold_an_eighth_lower) = [0; round2 (-0.125)]
  /\ (-0.125 <? round2 (-0.125)) = true.
Proof. repeat split; reflexivity. Qed.

(** C10 (as amended): a BUY debits the cash by the cost the program
    computes, [(ALLOCATION_PER_TRADE / price) * price] with the division and
    the product rounded to binary64, where [ALLOCATION_PER_TRADE] is
    250000. *)
Theorem buy_debits_computed_cost (exchange : Exchange) (st : session_state)
        (sym : string) :
  buy_attempted exchange st sym = true ->
  (balance st >=? buy_cost (current_price_of exchange sym)) = true ->
  let price := current_price_of exchange sym in
  ALLOCATION_PER_TRADE = 250000
  /\ balance (Rev1.step exchange st sym)
     = balance st - ALLOCATION_PER_TRADE / price * price
  /\ balance (fst (Rev2.step exchange st sym))
     = balance st - ALLOCATION_PER_TRADE / price * price.
Proof.
  intros Hb Hc price. split; [exact allocation_value|].
  rewrite (rev1_step_buy _ _ _ Hb Hc), (rev2_step_buy _ _ _ Hb Hc).
  split; reflexivity.
Qed.

Lemma buy_debits_computed_cost_witness :
  balance (Rev1.step rising_to_100 initial_state "AAA/USDT")
  = balance initial_state - ALLOCATION_PER_TRADE / 100 * 100
  /\ balance (fst (Rev2.step rising_to_100 initial_state "AAA/USDT"))
     = balance initial_state - ALLOCATION_PER_TRADE / 100 * 100.
Proof.
  exact (proj2 (buy_debits_computed_cost rising_to_100 initial_state
                  "AAA/USDT" eq_refl eq_refl)).
Defined.

(** C10 (as stated) fails: at the positive prices 110 and 49 the cost is
    below and above 250000.  With four instruments at 49 the third BUY takes
    the cash from 500000 to less than 250000, and the fourth, which would
    fit if every BUY removed 250000, is refused. *)
Lemma buy_cost_is_not_the_allocation :
  (buy_cost 110 <? ALLOCATION_PER_TRADE) = true
  /\ (ALLOCATION_PER_TRADE <? buy_cost 49) = true
  /\ map (fun t => (Type_ t, Price t)) (trade_log after_four_at_49)
     = [(BUY, 49); (BUY, 49); (BUY, 49)]
  /\ balance (fold_left (Rev1.step four_at_49)
                        ["A/USDT"; "B/USDT"]%string initial_state) = 500000
  /\ (balance after_four_at_49 <? 500000 - ALLOCATION_PER_TRADE) = true
  /\ buy_attempted four_at_49 after_four_at_49 "D/USDT" = true
  /\ (balance after_four_at_49 >=? buy_cost 49) = false.
Proof. repeat split; reflexivity. Qed.


(** * Further properties *)

(** ** Ranking *)

Lemma ltb_asym (a b : float) : (a <? b) = true -> (b <? a) = false.
Proof.
  rewrite !ltb_spec. unfold SFltb.
  rewrite (SFcompare_antisym (Prim2SF a) (Prim2SF b)).
  destruct (SFcompare (Prim2SF a) (Prim2SF b)) as [[]|]; cbn; congruence.
Qed.

Lemma insert_desc_perm (x : Ticker) (l : list Ticker) :
  Permutation (insert_desc x l) (x :: l).
Proof.
  induction l as [|y l IH]; cbn; [reflexivity|].
  destruct (quoteVolume x <? quoteVolume y); [|reflexivity].
  rewrite IH. apply perm_swap.
Qed.

Lemma sorted_desc_perm (l : list Ticker) : Permutation (sorted_desc l) l.
Proof.
  induction l as [|x l IH]; cbn; [reflexivity|].
  rewrite insert_desc_perm. now constructor.
Qed.

Lemma insert_desc_hd (x y : Ticker) (l : list Ticker) :
  volume_not_below y x -> HdRel volume_not_below y l ->
  HdRel volume_not_below y (insert_desc x l).
Proof.
  intros Hyx Hl. destruct l as [|z l]; cbn; [now constructor|].
  destruct (quoteVolume x <? quoteVolume z); constructor;
    [now inversion Hl | exact Hyx].
Qed.

Lemma insert_desc_sorted (x : Ticker) (l : list Ticker) :
  Sorted volume_not_below l -> Sorted volume_not_below (insert_desc x l).
Proof.
  induction 1 as [|y l Hl IH Hhd]; cbn; [repeat constructor|].
  destruct (quoteVolume x <? quoteVolume y) eqn:E.
  - constructor; [exact IH|].
    apply insert_desc_hd; [|exact Hhd].
    now apply ltb_asym.
  - constructor; [now constructor|]. constructor. exact E.
Qed.

Lemma sorted_desc_sorted (l : list Ticker) :
  Sorted volume_not_below (sorted_desc l).
Proof.
  induction l as [|x l IH]; cbn; [constructor|].
  now apply insert_desc_sorted.
Qed.

Lemma In_firstn (A : Type) (n : nat) (l : list A) (x : A) :
  In x (firstn n l) -> In x l.
Proof.
  intros H. rewrite <- (firstn_skipn n l). apply in_or_app. now left.
Qed.

(** X1: when the ticker request succeeds, [fetch_top_coins] returns the
    symbols of the first [limit] tickers of an arrangement of all the
    tickers whose key ends in [/USDT] in which no ticker has a smaller
    volume than the next one; it returns [limit] symbols, or all of them
    when there are fewer. *)
Theorem fetch_top_coins_ranking (tickers : dict Ticker)
        (ohlcv : string -> option (list Candle)) (limit : nat) :
  exists ranked rest,
    fetch_top_coins {| fetch_tickers := Some tickers; fetch_ohlcv := ohlcv |}
                    limit
    = map symbol ranked
    /\ Permutation (ranked ++ rest) (map snd (filter is_usdt_pair tickers))
    /\ Sorted volume_not_below (ranked ++ rest)
    /\ List.length ranked
       = Nat.min limit (List.length (filter is_usdt_pair tickers)).
Proof.
  set (usdt := map snd (filter is_usdt_pair tickers)).
  exists (firstn limit (sorted_desc usdt)), (skipn limit (sorted_desc usdt)).
  rewrite firstn_skipn. repeat split.
  - apply sorted_desc_perm.
  - apply sorted_desc_sorted.
  - rewrite length_firstn.
    rewrite (Permutation_length (sorted_desc_perm usdt)).
    unfold usdt. now rewrite length_map.
Qed.

Lemma fetch_top_coins_length (exchange : Exchange) (limit : nat) :
  (List.length (fetch_top_coins exchange limit) <= limit)%nat.
Proof.
  unfold fetch_top_coins.
  destruct (fetch_tickers exchange) as [tickers|]; [|cbn; lia].
  rewrite length_map, length_firstn. lia.
Qed.

(** X2: every symbol of the ranking is the symbol of a ticker that the
    exchange lists under a key ending in [/USDT], and the ranking has at
    most [limit] symbols. *)
Theorem fetch_top_coins_only_usdt (exchange : Exchange) (limit : nat)
        (sym : string) :
  In sym (fetch_top_coins exchange limit) ->
  (List.length (fetch_top_coins exchange limit) <= limit)%nat
  /\ exists tickers key t,
       fetch_tickers exchange = Some tickers
       /\ In (key, t) tickers
       /\ endswith key "/USDT" = true
       /\ symbol t = sym.
Proof.
  intros Hin. split; [apply fetch_top_coins_length|].
  revert Hin. unfold fetch_top_coins.
  destruct (fetch_tickers exchange) as [tickers|]; cbn; [|tauto].
  intros Hin. apply in_map_iff in Hin. destruct Hin as [t [Hsym Hin]].
  apply In_firstn in Hin.
  apply (Permutation_in _ (sorted_desc_perm _)) in Hin.
  apply in_map_iff in Hin. destruct Hin as [[key t'] [Ht Hin]].
  cbn in Ht. subst t'. apply filter_In in Hin. destruct Hin as [Hin Hk].
  exists tickers, key, t. auto.
Qed.

Lemma fetch_top_coins_only_usdt_witness :
  In "BTC/USDT"%string (fetch_top_coins mixed_tickers 10)
  /\ (List.length (fetch_top_coins mixed_tickers 10) <= 10)%nat
  /\ exists tickers key t,
       fetch_tickers mixed_tickers = Some tickers
       /\ In (key, t) tickers
       /\ endswith key "/USDT" = true
       /\ symbol t = "BTC/USDT"%string.
Proof.
  assert (H : In "BTC/USDT"%string (fetch_top_coins mixed_tickers 10))
    by (cbn; left; reflexivity).
  split; [exact H|].
  exact (fetch_top_coins_only_usdt mixed_tickers 10 "BTC/USDT" H).
Defined.


(** ** Ledger *)

Section MoreDictFacts.
Context {V : Type}.
Implicit Types (d : dict V) (k : string) (v : V).

Lemma setitem_new d k v : contains d k = false -> setitem d k v = d ++ [(k, v)].
Proof.
  induction d as [|[k' v'] d IH]; cbn; [reflexivity|].
  destruct (String.eqb k k'); cbn; [discriminate|].
  intros H. now rewrite IH.
Qed.

Lemma contains_keys d k : contains d k = true <-> In k (map fst d).
Proof.
  unfold contains. rewrite existsb_exists, in_map_iff. split.
  - intros [kv [Hin He]]. apply String.eqb_eq in He. exists kv. auto.
  - intros [kv [He Hin]]. exists kv. split; [exact Hin|].
    subst k. apply String.eqb_refl.
Qed.

Lemma delitem_absent d k : contains d k = false -> delitem d k = d.
Proof.
  unfold delitem. induction d as [|[k' v'] d IH]; cbn; [reflexivity|].
  destruct (String.eqb k k'); cbn; [discriminate|].
  intros H. now rewrite IH.
Qed.

Lemma keys_delitem_incl d k x :
  In x (map fst (delitem d k)) -> In x (map fst d).
Proof.
  rewrite !in_map_iff. intros [kv [He Hin]].
  apply filter_In in Hin. exists kv. tauto.
Qed.

Lemma NoDup_delitem d k :
  NoDup (map fst d) -> NoDup (map fst (delitem d k)).
Proof.
  induction d as [|[k' v'] d IH]; cbn; [intros; constructor|].
  intros H. inversion H as [|? ? Hnin Hd]; subst.
  destruct (String.eqb k k'); cbn; [now apply IH|].
  constructor; [|now apply IH].
  intros Hin. apply Hnin. now apply keys_delitem_incl in Hin.
Qed.

Lemma NoDup_setitem_new d k v :
  contains d k = false -> NoDup (map fst d) ->
  NoDup (map fst (setitem d k v)).
Proof.
  intros Hc Hd. rewrite (setitem_new _ _ _ Hc), map_app. cbn.
  apply NoDup_app; [exact Hd | repeat constructor; intros [] |].
  intros x Hx [<- | []].
  apply contains_keys in Hx. congruence.
Qed.

Lemma len_delitem_held d k :
  NoDup (map fst d) -> contains d k = true ->
  len (delitem d k) = (len d - 1)%Z.
Proof.
  unfold len. intros Hd Hc.
  enough (S (List.length (delitem d k)) = List.length d) by lia.
  induction d as [|[k' v'] d IH]; [discriminate|].
  cbn [map fst] in Hd. inversion Hd as [|? ? Hnin Hd']; subst.
  unfold delitem in *. cbn in *.
  destruct (String.eqb k k') eqn:E; cbn in *.
  - apply String.eqb_eq in E. subst k'.
    fold (delitem d k). rewrite delitem_absent; [reflexivity|].
    destruct (contains d k) eqn:Hk; [|reflexivity].
    apply contains_keys in Hk. contradiction.
  - f_equal. now apply IH.
Qed.

Lemma getitem_setitem_other d k k' v :
  String.eqb k' k = false -> getitem (setitem d k v) k' = getitem d k'.
Proof.
  intros Hne. induction d as [|[k0 v0] d IH]; cbn.
  - now rewrite Hne.
  - destruct (String.eqb k k0) eqn:E; cbn.
    + apply String.eqb_eq in E. subst k0. now rewrite Hne.
    + now rewrite IH.
Qed.

Lemma getitem_delitem_other d k k' :
  String.eqb k' k = false -> getitem (delitem d k) k' = getitem d k'.
Proof.
  intros Hne. unfold delitem.
  induction d as [|[k0 v0] d IH]; cbn; [reflexivity|].
  destruct (String.eqb k k0) eqn:E; cbn.
  - apply String.eqb_eq in E. subst k0. now rewrite Hne.
  - now rewrite IH.
Qed.

Lemma getitem_delitem_same d k : getitem (delitem d k) k = None.
Proof. apply contains_false_getitem, contains_delitem_same. Qed.

End MoreDictFacts.

Lemma count_type_app (ty : TradeType) (l1 l2 : list Trade) :
  count_type ty (l1 ++ l2) = (count_type ty l1 + count_type ty l2)%Z.
Proof. unfold count_type. rewrite filter_app, length_app. lia. Qed.

Lemma after_buy_ledger (st : session_state) (sym : string) (price : float) :
  contains (portfolio st) sym = false ->
  ledger_invariant st -> ledger_invariant (after_buy st sym price).
Proof.
  intros Hc (Hnd & Hlen & Hpos). repeat split; cbn [portfolio trade_log after_buy].
  - now apply NoDup_setitem_new.
  - rewrite len_setitem_new by exact Hc. rewrite !count_type_app. cbn. lia.
  - rewrite (setitem_new _ _ _ Hc). apply Forall_app. split.
    + eapply Forall_impl; [|exact Hpos]. cbn. intros sp [Ha Hin].
      split; [exact Ha | apply in_or_app; now left].
    + constructor; [|constructor]. cbn. split; [reflexivity|].
      apply in_or_app. right. now left.
Qed.

Lemma after_sell_ledger (recorded : float -> float) (st : session_state)
      (sym : string) (pos : Position) (price : float) :
  getitem (portfolio st) sym = Some pos ->
  ledger_invariant st -> ledger_invariant (after_sell recorded st sym pos price).
Proof.
  intros Hg (Hnd & Hlen & Hpos).
  repeat split; cbn [portfolio trade_log after_sell].
  - now apply NoDup_delitem.
  - rewrite len_delitem_held; [|exact Hnd | eapply getitem_Some_contains, Hg].
    rewrite !count_type_app. cbn. lia.
  - apply Forall_delitem.
    eapply Forall_impl; [|exact Hpos]. cbn. intros sp [Ha Hin].
    split; [exact Ha | apply in_or_app; now left].
Qed.

Lemma reachable_ledger_invariant (st : session_state) :
  reachable any_prices st -> ledger_invariant st.
Proof.
  induction 1 as [|b st _ IH|exchange sym st _ _ IH|exchange sym st _ _ IH].
  - repeat split; constructor.
  - exact IH.
  - destruct (rev1_step_cases exchange st sym)
      as [-> | [(Hb & _ & ->) | (pos & _ & Hg & _ & ->)]]; [exact IH | |].
    + apply buy_attempted_inv in Hb. now apply after_buy_ledger.
    + now apply after_sell_ledger.
  - destruct (rev2_step_cases exchange st sym)
      as [-> | [(Hb & _ & ->) | (pos & _ & Hg & _ & ->)]]; cbn [fst];
      [exact IH | |].
    + apply buy_attempted_inv in Hb. now apply after_buy_ledger.
    + now apply after_sell_ledger.
Qed.

(** X3: in every session state the script can reach, the number of open
    positions is the number of BUY records in the trade log minus the
    number of SELL records. *)
Theorem open_positions_match_log (st : session_state) :
  reachable any_prices st ->
  len (portfolio st)
  = (count_type BUY (trade_log st) - count_type SELL (trade_log st))%Z.
Proof. intros H. now apply reachable_ledger_invariant in H as (_ & ? & _). Qed.

Lemma sold_at_95_reachable : reachable any_prices sold_at_95.
Proof. repeat (apply reachable_run1; [exact I|]). constructor. Qed.

Lemma open_positions_match_log_witness :
  reachable any_prices sold_at_95
  /\ len (portfolio sold_at_95)
     = (count_type BUY (trade_log sold_at_95)
        - count_type SELL (trade_log sold_at_95))%Z.
Proof.
  split; [exact sold_at_95_reachable|].
  exact (open_positions_match_log sold_at_95 sold_at_95_reachable).
Defined.

Lemma positions_backed_lemma (st : session_state) (sym : string)
      (pos : Position) :
  reachable any_prices st ->
  getitem (portfolio st) sym = Some pos ->
  amt pos = ALLOCATION_PER_TRADE / avg_price pos
  /\ In (opening_record sym pos) (trade_log st).
Proof.
  intros H Hg. apply reachable_ledger_invariant in H as (_ & _ & Hpos).
  apply getitem_In in Hg. rewrite Forall_forall in Hpos.
  exact (Hpos _ Hg).
Qed.

(** X4: in every session state the script can reach, every open position
    holds the quantity [ALLOCATION_PER_TRADE / avg_price], and the trade log
    has the BUY record of that symbol with that price and quantity: a
    position is never averaged into or resized. *)
Theorem positions_sized_and_backed (st : session_state) (sym : string)
        (pos : Position) :
  reachable any_prices st ->
  getitem (portfolio st) sym = Some pos ->
  amt pos = ALLOCATION_PER_TRADE / avg_price pos
  /\ In {| Symbol := sym; Type_ := BUY; Price := avg_price pos;
           Qty := amt pos; PnL := 0 |} (trade_log st).
Proof. apply positions_backed_lemma. Qed.

Lemma after_four_at_49_reachable : reachable any_prices after_four_at_49.
Proof. apply reachable_run1; [exact I | constructor]. Qed.

Lemma positions_sized_and_backed_witness :
  reachable any_prices after_four_at_49
  /\ getitem (portfolio after_four_at_49) "B/USDT"
     = Some {| amt := 250000 / 49; avg_price := 49 |}
  /\ 250000 / 49 = ALLOCATION_PER_TRADE / 49
  /\ In {| Symbol := "B/USDT"; Type_ := BUY; Price := 49;
           Qty := 250000 / 49; PnL := 0 |} (trade_log after_four_at_49).
Proof.
  split; [exact after_four_at_49_reachable|].
  split; [reflexivity|].
  exact (positions_sized_and_backed after_four_at_49 "B/USDT"
           {| amt := 250000 / 49; avg_price := 49 |}
           after_four_at_49_reachable eq_refl).
Defined.


(** ** Passes and the trade log *)

(** A loop body changes nothing, or appends one record, for its symbol. *)
Lemma rev1_step_log_cases (exchange : Exchange) (st : session_state)
      (sym : string) :
  Rev1.step exchange st sym = st
  \/ exists t, Symbol t = sym
               /\ trade_log (Rev1.step exchange st sym) = trade_log st ++ [t].
Proof.
  destruct (rev1_step_cases exchange st sym)
    as [E | [(_ & _ & E) | (pos & _ & _ & _ & E)]]; [now left | right ..];
    rewrite E; eexists; (split; [|reflexivity]); reflexivity.
Qed.

Lemma rev1_fold_log (exchange : Exchange) (syms : list string)
      (st : session_state) :
  exists new,
    trade_log (fold_left (Rev1.step exchange) syms st) = trade_log st ++ new
    /\ (List.length new <= List.length syms)%nat
    /\ Forall (fun t => In (Symbol t) syms) new.
Proof.
  revert st. induction syms as [|sym syms IH]; intros st; cbn [fold_left].
  - exists []. rewrite app_nil_r. repeat split; constructor.
  - destruct (IH (Rev1.step exchange st sym)) as (new & Hlog & Hlen & Hsym).
    assert (Hin : Forall (fun t => In (Symbol t) (sym :: syms)) new).
    { eapply Forall_impl; [|exact Hsym]. intros t Ht. now right. }
    destruct (rev1_step_log_cases exchange st sym) as [E | (t & Ht & E)].
    + exists new. rewrite Hlog, E. repeat split; [cbn; lia | exact Hin].
    + exists (t :: new). rewrite Hlog, E, <- app_assoc.
      repeat split; [cbn; lia|].
      constructor; [now left | exact Hin].
Qed.

(** X5: a pass of the first definition of [run_strategy] only appends to
    the trade log: the old records stay in place, at most one record is
    added per ranked symbol, hence at most ten per pass, and every new
    record is for a symbol of the ranking. *)
Theorem first_definition_appends_to_log (exchange : Exchange)
        (st : session_state) :
  exists new,
    trade_log (Rev1.run_strategy exchange st) = trade_log st ++ new
    /\ (List.length new <= List.length (fetch_top_coins exchange 10) <= 10)%nat
    /\ Forall (fun t => In (Symbol t) (fetch_top_coins exchange 10)) new.
Proof.
  unfold Rev1.run_strategy.
  destruct (rev1_fold_log exchange (fetch_top_coins exchange 10) st)
    as (new & Hlog & Hlen & Hsym).
  exists new. repeat split; try assumption.
  apply fetch_top_coins_length.
Qed.

Lemma rev1_fold_idle (exchange : Exchange) (syms : list string)
      (st : session_state) :
  trade_log (fold_left (Rev1.step exchange) syms st) = trade_log st ->
  fold_left (Rev1.step exchange) syms st = st.
Proof.
  revert st. induction syms as [|sym syms IH]; intros st; cbn [fold_left];
    [reflexivity|].
  destruct (rev1_step_log_cases exchange st sym) as [E | (t & _ & E)].
  - rewrite E. apply IH.
  - destruct (rev1_fold_log exchange syms (Rev1.step exchange st sym))
      as (new & Hlog & _).
    rewrite Hlog, E, <- app_assoc. intros H.
    apply (f_equal (@List.length Trade)) in H.
    rewrite !length_app in H. cbn in H. lia.
Qed.

Lemma rev2_scan_idle (exchange : Exchange) (syms : list string)
      (st : session_state) :
  trade_log (Rev2.scan exchange syms st) = trade_log st ->
  Forall (fun sym => Rev2.step exchange st sym = (st, false)) syms
  /\ Rev2.scan exchange syms st = st.
Proof.
  intros H.
  destruct (rev2_scan_stops_at_first_trade exchange syms st)
    as [Hidle | (before & sym & after & _ & _ & Hstop & Hscan)];
    [exact Hidle|].
  destruct (rev2_step_log exchange st sym Hstop) as [t Ht].
  rewrite Hscan, Ht in H.
  apply (f_equal (@List.length Trade)) in H.
  rewrite length_app in H. cbn in H. lia.
Qed.

(** X6: nothing changes without a record: when a pass, of either
    definition, leaves the trade log as it was, it leaves the whole session
    state (cash and positions too) as it was. *)
Theorem no_change_without_record (exchange : Exchange) (st : session_state) :
  (trade_log (Rev1.run_strategy exchange st) = trade_log st ->
   Rev1.run_strategy exchange st = st)
  /\ (trade_log (Rev2.run_strategy exchange st) = trade_log st ->
      Rev2.run_strategy exchange st = st).
Proof.
  split.
  - apply rev1_fold_idle.
  - unfold Rev2.run_strategy. intros H. now apply rev2_scan_idle in H.
Qed.

Lemma no_change_without_record_witness :
  Rev1.run_strategy no_quotes holding_aaa = holding_aaa
  /\ Rev2.run_strategy no_quotes holding_aaa = holding_aaa.
Proof.
  destruct (no_change_without_record no_quotes holding_aaa) as [H1 H2].
  split; [exact (H1 eq_refl) | exact (H2 eq_refl)].
Defined.

Lemma rev2_idle_rev1_idle (exchange : Exchange) (st : session_state)
      (sym : string) :
  Rev2.step exchange st sym = (st, false) -> Rev1.step exchange st sym = st.
Proof.
  intros H2.
  destruct (rev1_step_cases exchange st sym)
    as [E | [(Hb & Hc & _) | (pos & He & Hg & Hs & _)]]; [exact E | |].
  - rewrite (rev2_step_buy _ _ _ Hb Hc) in H2. discriminate.
  - rewrite (rev2_step_sell exchange st sym pos He Hg) in H2; [discriminate|].
    unfold sell_signal2. now rewrite Hs.
Qed.

(** X7: the second definition trades whenever the first does: on a market
    where a pass of the second definition adds no record to the trade log,
    a pass of the first definition changes nothing. *)
Theorem second_definition_idle_implies_first_idle (exchange : Exchange)
        (st : session_state) :
  trade_log (Rev2.run_strategy exchange st) = trade_log st ->
  Rev1.run_strategy exchange st = st.
Proof.
  unfold Rev2.run_strategy, Rev1.run_strategy. intros H.
  destruct (fetch_top_coins exchange 10) as [|sym syms]; [reflexivity|].
  apply rev2_scan_idle in H. destruct H as [Hall _].
  induction Hall as [|s l Hs _ IH]; cbn [fold_left]; [reflexivity|].
  now rewrite (rev2_idle_rev1_idle _ _ _ Hs).
Qed.

Lemma second_definition_idle_implies_first_idle_witness :
  trade_log (Rev2.run_strategy one_candle_at_200 initial_state)
  = trade_log initial_state
  /\ Rev1.run_strategy one_candle_at_200 initial_state = initial_state.
Proof.
  split; [reflexivity|].
  exact (second_definition_idle_implies_first_idle one_candle_at_200
           initial_state eq_refl).
Defined.

(** ** Positions *)

(** X8: a loop body for one symbol leaves the positions of the other symbols
    as they are, and it never modifies an open position of its own symbol:
    the position stays as it is or is closed. *)
Theorem step_touches_only_its_symbol (exchange : Exchange)
        (st : session_state) (sym other : string) :
  String.eqb other sym = false ->
  getitem (portfolio (Rev1.step exchange st sym)) other
  = getitem (portfolio st) other
  /\ getitem (portfolio (fst (Rev2.step exchange st sym))) other
     = getitem (portfolio st) other
  /\ match getitem (portfolio st) sym with
     | Some pos =>
         (getitem (portfolio (Rev1.step exchange st sym)) sym = Some pos
          \/ getitem (portfolio (Rev1.step exchange st sym)) sym = None)
         /\ (getitem (portfolio (fst (Rev2.step exchange st sym))) sym
             = Some pos
             \/ getitem (portfolio (fst (Rev2.step exchange st sym))) sym
                = None)
     | None => True
     end.
Proof.
  intros Hne. split; [|split].
  - destruct (rev1_step_cases exchange st sym)
      as [E | [(_ & _ & E) | (pos & _ & _ & _ & E)]]; rewrite E; cbn;
      [reflexivity | now apply getitem_setitem_other
       | now apply getitem_delitem_other].
  - destruct (rev2_step_cases exchange st sym)
      as [E | [(_ & _ & E) | (pos & _ & _ & _ & E)]]; rewrite E; cbn;
      [reflexivity | now apply getitem_setitem_other
       | now apply getitem_delitem_other].
  - destruct (getitem (portfolio st) sym) as [pos|] eqn:Hg; [|exact I].
    split.
    + destruct (rev1_step_cases exchange st sym)
        as [E | [(Hb & _) | (pos' & _ & _ & _ & E)]].
      * left. now rewrite E.
      * apply buy_attempted_inv in Hb. destruct Hb as (_ & Hc & _).
        apply getitem_Some_contains in Hg. congruence.
      * right. rewrite E. cbn. apply getitem_delitem_same.
    + destruct (rev2_step_cases exchange st sym)
        as [E | [(Hb & _) | (pos' & _ & _ & _ & E)]].
      * left. now rewrite E.
      * apply buy_attempted_inv in Hb. destruct Hb as (_ & Hc & _).
        apply getitem_Some_contains in Hg. congruence.
      * right. rewrite E. cbn. apply getitem_delitem_same.
Qed.

Lemma step_touches_only_its_symbol_witness :
  String.eqb "ABC/USDT" "BBB/USDT" = false
  /\ getitem (portfolio (Rev1.step two_rising bought_at_110 "BBB/USDT"))
             "ABC/USDT"
     = getitem (portfolio bought_at_110) "ABC/USDT"
  /\ getitem (portfolio (fst (Rev2.step two_rising bought_at_110 "BBB/USDT")))
             "ABC/USDT"
     = getitem (portfolio bought_at_110) "ABC/USDT".
Proof.
  split; [reflexivity|].
  destruct (step_touches_only_its_symbol two_rising bought_at_110
              "BBB/USDT" "ABC/USDT" eq_refl) as (H1 & H2 & _).
  split; [exact H1 | exact H2].
Defined.


(** ** Dashboard and panels *)

Lemma fold_add_nonneg (l : list float) (acc : float) :
  (acc <? 0) = false -> Forall (fun x => (x <? 0) = false) l ->
  (fold_left add l acc <? 0) = false.
Proof.
  revert acc. induction l as [|x l IH]; intros acc Hacc Hl; cbn; [exact Hacc|].
  inversion Hl; subst. apply IH; [now apply add_nonneg | assumption].
Qed.

(** X9: in every session state reached with nonnegative prices, and valued
    against a market with nonnegative prices, neither the holdings value
    nor the total portfolio value shown by the dashboard is negative. *)
Theorem dashboard_values_not_negative (exchange : Exchange)
        (st : session_state) :
  reachable nonneg_prices st ->
  nonneg_prices exchange ->
  (current_holdings_val exchange st <? 0) = false
  /\ (total_portfolio (fst (dashboard_metrics exchange st)) <? 0) = false.
Proof.
  intros Hreach Hok. apply reachable_cash_invariant in Hreach.
  destruct Hreach as [Hb Hp].
  assert (Hh : (current_holdings_val exchange st <? 0) = false).
  { unfold current_holdings_val. apply fold_add_nonneg; [reflexivity|].
    apply Forall_forall. intros x Hx.
    apply in_map_iff in Hx. destruct Hx as [[sym pos] [<- Hin]].
    apply filter_In in Hin. destruct Hin as [Hin He]. cbn in *.
    apply negb_true_iff in He.
    rewrite Forall_forall in Hp. specialize (Hp _ Hin). cbn in Hp.
    apply mul_nonneg; [exact Hp|].
    apply leb_zero_nonneg.
    exact (current_price_nonneg exchange sym Hok He). }
  split; [exact Hh|]. cbn. now apply add_nonneg.
Qed.

Lemma dashboard_values_not_negative_witness :
  reachable nonneg_prices holding_aaa
  /\ nonneg_prices one_candle_at_200
  /\ (current_holdings_val one_candle_at_200 holding_aaa <? 0) = false
  /\ (total_portfolio (fst (dashboard_metrics one_candle_at_200 holding_aaa))
      <? 0) = false.
Proof.
  assert (H1 : reachable nonneg_prices holding_aaa).
  { apply holding_aaa_reachable. apply market_nonneg. reflexivity. }
  assert (H2 : nonneg_prices one_candle_at_200)
    by (apply market_nonneg; reflexivity).
  split; [exact H1 | split; [exact H2|]].
  exact (dashboard_values_not_negative one_candle_at_200 holding_aaa H1 H2).
Defined.

(** X10: the chart follows the position that was opened first among those
    still open: a loop body for any other symbol, whether it buys, sells or
    does nothing, leaves the chart panel as it is. *)
Theorem chart_follows_oldest_position (exchange shown : Exchange)
        (st : session_state) (sym oldest : string) (pos : Position)
        (others : dict Position) :
  portfolio st = (oldest, pos) :: others ->
  String.eqb sym oldest = false ->
  live_market_chart shown (Rev1.step exchange st sym)
  = live_market_chart shown st
  /\ live_market_chart shown (fst (Rev2.step exchange st sym))
     = live_market_chart shown st.
Proof.
  intros Hp Hne. unfold live_market_chart. split.
  - destruct (rev1_step_cases exchange st sym)
      as [E | [(_ & _ & E) | (pos' & _ & _ & _ & E)]]; rewrite E;
      [reflexivity | |]; cbn [portfolio after_buy after_sell];
      rewrite Hp; unfold delitem; cbn; rewrite Hne; reflexivity.
  - destruct (rev2_step_cases exchange st sym)
      as [E | [(_ & _ & E) | (pos' & _ & _ & _ & E)]]; rewrite E; cbn [fst];
      [reflexivity | |]; cbn [portfolio after_buy after_sell];
      rewrite Hp; unfold delitem; cbn; rewrite Hne; reflexivity.
Qed.

Lemma chart_follows_oldest_position_witness :
  portfolio bought_at_110
  = [("ABC/USDT"%string, {| amt := 250000 / 110; avg_price := 110 |})]
  /\ live_market_chart rising_to_110
                       (Rev1.step two_rising bought_at_110 "BBB/USDT")
     = Candlestick "ABC/USDT" (candles [100; 100; 100; 100; 110])
  /\ List.length (portfolio (Rev1.step two_rising bought_at_110 "BBB/USDT"))
     = 2%nat.
Proof.
  split; [reflexivity|]. split; [|reflexivity].
  exact (proj1 (chart_follows_oldest_position two_rising rising_to_110
                  bought_at_110 "BBB/USDT" "ABC/USDT"
                  {| amt := 250000 / 110; avg_price := 110 |} []
                  eq_refl eq_refl)).
Defined.

Lemma trade_log_panel_snoc (st st' : session_state) (t : Trade) :
  trade_log st' = trade_log st ++ [t] ->
  trade_log_panel st' = Some (t :: rev (trade_log st)).
Proof.
  unfold trade_log_panel. intros ->. rewrite rev_app_distr. cbn.
  destruct (trade_log st); reflexivity.
Qed.

(** X11: the log panel shows the newest trade first: a loop body of either
    definition changes nothing, or its trade, a record for the scanned
    symbol, becomes the first row of the panel, above the rows shown
    before. *)
Theorem newest_trade_tops_the_log_panel (exchange : Exchange)
        (st : session_state) (sym : string) :
  (Rev1.step exchange st sym = st
   \/ exists t,
        Symbol t = sym
        /\ trade_log_panel (Rev1.step exchange st sym)
           = Some (t :: rev (trade_log st)))
  /\ (Rev2.step exchange st sym = (st, false)
      \/ exists t,
           Symbol t = sym
           /\ trade_log_panel (fst (Rev2.step exchange st sym))
              = Some (t :: rev (trade_log st))).
Proof.
  split.
  - destruct (rev1_step_log_cases exchange st sym) as [E | (t & Ht & E)];
      [now left | right].
    exists t. split; [exact Ht | now apply trade_log_panel_snoc].
  - destruct (rev2_step_cases exchange st sym)
      as [E | [(_ & _ & E) | (pos & _ & _ & _ & E)]]; [now left | right ..];
      rewrite E; cbn [fst]; eexists;
      (split; [|apply trade_log_panel_snoc; reflexivity]); reflexivity.
Qed.

(** ** Start and stop *)

Lemma set_is_running_same (st : session_state) :
  set_is_running (is_running st) st = st.
Proof. now destruct st. Qed.

Lemma script_run_stopped (c : Clicks) (exchange : Exchange)
      (st : session_state) :
  is_running st = false -> start_clicked c = false ->
  snd (script_run c exchange st) = st.
Proof.
  intros Hr Hs. unfold script_run, sidebar. rewrite Hs.
  assert (E : (if stop_clicked c then set_is_running false st else st) = st).
  { destruct (stop_clicked c); [|reflexivity].
    rewrite <- Hr. apply set_is_running_same. }
  rewrite E. cbn. now rewrite Hr.
Qed.

(** X12: a stopped bot does not trade: from a session that is not running,
    any number of script runs in which Start is not pressed, against any
    markets, leave the session state (cash, positions, log) as it is. *)
Theorem stopped_bot_changes_nothing (runs : list (Clicks * Exchange))
        (st : session_state) :
  is_running st = false ->
  forallb (fun r => negb (start_clicked (fst r))) runs = true ->
  script_runs runs st = st.
Proof.
  intros Hr Hall. unfold script_runs.
  induction runs as [|[c exchange] runs IH]; cbn [fold_left]; [reflexivity|].
  cbn in Hall. apply andb_prop in Hall. destruct Hall as [Hc Hall].
  apply negb_true_iff in Hc. cbn [fst snd].
  rewrite (script_run_stopped c exchange st Hr Hc). now apply IH.
Qed.

Lemma stopped_bot_changes_nothing_witness :
  is_running holding_aaa = false
  /\ script_runs
       [({| start_clicked := false; stop_clicked := true |}, two_rising);
        ({| start_clicked := false; stop_clicked := false |}, one_candle_at_200)]
       holding_aaa
     = holding_aaa.
Proof.
  split; [reflexivity|].
  exact (stopped_bot_changes_nothing
           [({| start_clicked := false; stop_clicked := true |}, two_rising);
            ({| start_clicked := false; stop_clicked := false |},
             one_candle_at_200)]
           holding_aaa eq_refl eq_refl).
Defined.


(** ** The trade log as the record of the ledger *)

Lemma replay_cash_snoc (log : list Trade) (t : Trade) :
  replay_cash (log ++ [t])
  = match Type_ t with
    | BUY => replay_cash log - Qty t * Price t
    | SELL => replay_cash log + Qty t * Price t
    end.
Proof. unfold replay_cash. now rewrite fold_left_app. Qed.

Lemma replay_positions_snoc (log : list Trade) (t : Trade) :
  replay_positions (log ++ [t])
  = match Type_ t with
    | BUY => setitem (replay_positions log) (Symbol t)
                     {| amt := Qty t; avg_price := Price t |}
    | SELL => delitem (replay_positions log) (Symbol t)
    end.
Proof. unfold replay_positions. now rewrite fold_left_app. Qed.

Lemma replay_after_buy (st : session_state) (sym : string) (price : float) :
  balance st = replay_cash (trade_log st) ->
  portfolio st = replay_positions (trade_log st) ->
  balance (after_buy st sym price)
  = replay_cash (trade_log (after_buy st sym price))
  /\ portfolio (after_buy st sym price)
     = replay_positions (trade_log (after_buy st sym price)).
Proof.
  intros Hb Hp. cbn [balance portfolio trade_log after_buy].
  rewrite replay_cash_snoc, replay_positions_snoc.
  cbn [Type_ Qty Price Symbol]. now rewrite <- Hb, <- Hp.
Qed.

Lemma replay_after_sell (recorded : float -> float) (st : session_state)
      (sym : string) (pos : Position) (price : float) :
  balance st = replay_cash (trade_log st) ->
  portfolio st = replay_positions (trade_log st) ->
  balance (after_sell recorded st sym pos price)
  = replay_cash (trade_log (after_sell recorded st sym pos price))
  /\ portfolio (after_sell recorded st sym pos price)
     = replay_positions (trade_log (after_sell recorded st sym pos price)).
Proof.
  intros Hb Hp. cbn [balance portfolio trade_log after_sell].
  rewrite replay_cash_snoc, replay_positions_snoc.
  cbn [Type_ Qty Price Symbol]. now rewrite <- Hb, <- Hp.
Qed.

Lemma reachable_replay (st : session_state) :
  reachable any_prices st ->
  balance st = replay_cash (trade_log st)
  /\ portfolio st = replay_positions (trade_log st).
Proof.
  induction 1 as [|b st _ IH|exchange sym st _ _ IH|exchange sym st _ _ IH].
  - split; reflexivity.
  - exact IH.
  - destruct IH as [Hb Hp].
    destruct (rev1_step_cases exchange st sym)
      as [-> | [(_ & _ & ->) | (pos & _ & _ & _ & ->)]];
      [now split | now apply replay_after_buy | now apply replay_after_sell].
  - destruct IH as [Hb Hp].
    destruct (rev2_step_cases exchange st sym)
      as [-> | [(_ & _ & ->) | (pos & _ & _ & _ & ->)]]; cbn [fst];
      [now split | now apply replay_after_buy | now apply replay_after_sell].
Qed.

(** X13: the cash can be audited from the trade log: in every session state
    the script can reach, the balance is the starting capital with
    [Qty * Price] subtracted for every BUY record and added for every SELL
    record, in the order of the log (the same float operations the program
    performed). *)
Theorem cash_is_replay_of_log (st : session_state) :
  reachable any_prices st -> balance st = replay_cash (trade_log st).
Proof. intros H. now apply reachable_replay in H. Qed.

Lemma cash_is_replay_of_log_witness :
  reachable any_prices sold_at_95
  /\ balance sold_at_95
     = 1000000 - 250000 / 110 * 110 + 250000 / 110 * 95.
Proof.
  split; [exact sold_at_95_reachable|].
  exact (cash_is_replay_of_log sold_at_95 sold_at_95_reachable).
Defined.

(** X14: the open positions can be rebuilt from the trade log: in every
    session state the script can reach, the portfolio, with its order, is
    what results from opening a position of [Qty] at [Price] for every BUY
    record and closing the symbol's position for every SELL record. *)
Theorem positions_are_replay_of_log (st : session_state) :
  reachable any_prices st -> portfolio st = replay_positions (trade_log st).
Proof. intros H. now apply reachable_replay in H. Qed.

Lemma positions_are_replay_of_log_witness :
  reachable any_prices after_four_at_49
  /\ portfolio after_four_at_49 = replay_positions (trade_log after_four_at_49).
Proof.
  split; [exact after_four_at_49_reachable|].
  exact (positions_are_replay_of_log after_four_at_49
           after_four_at_49_reachable).
Defined.

Lemma snoc_split (A : Type) (before after log : list A) (t r : A) :
  before ++ t :: after = log ++ [r] ->
  (after = [] /\ before = log /\ t = r)
  \/ exists after', after = after' ++ [r] /\ log = before ++ t :: after'.
Proof.
  intros H. destruct (exists_last (l := t :: after)) as (l' & x & E);
    [discriminate|].
  destruct after as [|a after].
  - left. change (before ++ [t] = log ++ [r]) in H.
    apply app_inj_tail in H. destruct H as [-> ->]. auto.
  - right. destruct (exists_last (l := a :: after)) as (after' & y & E');
      [discriminate|].
    rewrite E' in H.
    change (before ++ t :: after' ++ [y])
      with (before ++ (t :: after') ++ [y]) in H.
    rewrite app_assoc in H. apply app_inj_tail in H. destruct H as [<- ->].
    exists after'. split; [exact E' | reflexivity].
Qed.

Lemma sells_follow_buys_snoc_buy (log : list Trade) (r : Trade) :
  Type_ r = BUY -> sells_follow_buys log -> sells_follow_buys (log ++ [r]).
Proof.
  intros Hr Hlog before t after Hsplit Ht.
  symmetry in Hsplit. apply snoc_split in Hsplit.
  destruct Hsplit as [(_ & _ & ->) | (after' & _ & Hlog')]; [congruence|].
  exact (Hlog before t after' Hlog' Ht).
Qed.

Lemma sells_follow_buys_snoc_sell (log : list Trade) (r b : Trade) :
  In b log -> Type_ b = BUY -> Symbol b = Symbol r -> Qty b = Qty r ->
  sells_follow_buys log -> sells_follow_buys (log ++ [r]).
Proof.
  intros Hin Hb Hs Hq Hlog before t after Hsplit Ht.
  symmetry in Hsplit. apply snoc_split in Hsplit.
  destruct Hsplit as [(_ & -> & ->) | (after' & _ & Hlog')].
  - exists b. auto.
  - exact (Hlog before t after' Hlog' Ht).
Qed.

Lemma reachable_sells_follow_buys (st : session_state) :
  reachable any_prices st -> sells_follow_buys (trade_log st).
Proof.
  intros Hreach.
  induction Hreach as [|b st _ IH|exchange sym st _ Hst IH|exchange sym st _ Hst IH].
  - intros before t after H. destruct before; discriminate.
  - exact IH.
  - destruct (rev1_step_cases exchange st sym)
      as [-> | [(_ & _ & ->) | (pos & _ & Hg & _ & ->)]]; [exact IH | |].
    + now apply sells_follow_buys_snoc_buy.
    + destruct (positions_backed_lemma st sym pos Hst Hg) as [_ Hin].
      now apply (sells_follow_buys_snoc_sell _ _ _ Hin).
  - destruct (rev2_step_cases exchange st sym)
      as [-> | [(_ & _ & ->) | (pos & _ & Hg & _ & ->)]]; cbn [fst];
      [exact IH | |].
    + now apply sells_follow_buys_snoc_buy.
    + destruct (positions_backed_lemma st sym pos Hst Hg) as [_ Hin].
      now apply (sells_follow_buys_snoc_sell _ _ _ Hin).
Qed.

(** X15: nothing is sold that was not bought: in every session state the
    script can reach, every SELL record of the trade log comes after a BUY
    record of the same symbol with the same quantity. *)
Theorem every_sell_follows_its_buy (st : session_state)
        (before after : list Trade) (t : Trade) :
  reachable any_prices st ->
  trade_log st = before ++ t :: after ->
  Type_ t = SELL ->
  exists b, In b before /\ Type_ b = BUY /\ Symbol b = Symbol t
            /\ Qty b = Qty t.
Proof.
  intros Hreach. exact (reachable_sells_follow_buys st Hreach before t after).
Qed.

Lemma every_sell_follows_its_buy_witness :
  reachable any_prices sold_at_95
  /\ exists b,
       In b [ {| Symbol := "ABC/USDT"; Type_ := BUY; Price := 110;
                 Qty := 250000 / 110; PnL := 0 |} ]
       /\ Type_ b = BUY /\ Symbol b = "ABC/USDT"%string
       /\ Qty b = 250000 / 110.
Proof.
  split; [exact sold_at_95_reachable|].
  exact (every_sell_follows_its_buy sold_at_95
           [ {| Symbol := "ABC/USDT"; Type_ := BUY; Price := 110;
                Qty := 250000 / 110; PnL := 0 |} ]
           []
           {| Symbol := "ABC/USDT"; Type_ := SELL; Price := 95;
              Qty := 250000 / 110;
              PnL := round2 (250000 / 110 * 95 - 250000 / 110 * 110) |}
           sold_at_95_reachable eq_refl eq_refl).
Defined.
